(** * project-tracker-be: the Lambda entry point of [lambda_function.py]

    A shallow embedding of the request router ([lambda_handler]), the error
    wrapper ([handle_errors]), the route registry ([route], [routes]) and the
    five handlers, together with the properties the specification states
    about them.

    Conventions of the embedding.
    - A Python value that can occur in an API Gateway event or in a parsed
      JSON body is a [value]; a Python [dict] with string keys is an
      insertion-ordered association list with unique keys ([pydict]).
    - A Python [str] is a [string] of its UTF-8 bytes.  The byte of ['/']
      never occurs inside a multi-byte sequence, so [startswith] and [split]
      on ['/'] agree on bytes and on code points.
    - A raised exception is the text [str(e)], the only part of it that the
      program uses; it is an [Exception], the class that the wrapper
      catches (the calls of the program raise no [BaseException] of another
      class).  Handlers run in the monad [M]: a function of the
      [world] that returns either that text or a result, and the next world.
    - The collaborators that are not part of the repository are the
      [Runtime]: the JSON codec ([json.loads], [json.dumps]), the source of
      identifiers ([uuid.uuid4]) and the failures of the storage service.
      The table itself is modelled as DynamoDB documents it: a map from the
      hash key [id] (a string) to the stored item, where [put_item]
      replaces, [update_item] creates the item it does not find, and
      [delete_item] ignores a key it does not find.  The table keeps an
      attribute as the value that was written; the client hands every
      number that it reads back as a [Decimal], which [json.dumps] refuses
      ([dumps_fetched]).  A scan returns one page, the first items up to
      the limit of the service ([scan_page]); the program never asks for
      the next page.
    - The texts of the exceptions of the interpreter are those of
      CPython 3.11 to 3.13. *)

From Stdlib Require Import ZArith Ascii String.
From stdpp Require Import gmap strings list fin_maps pretty.

Local Open Scope string_scope.
Local Open Scope Z_scope.

(** ** Python values *)

#[local] Set Warnings "-register-all".

Inductive value : Type :=
| VNone
| VBool (b : bool)
| VInt (n : Z)
| VFloat (ieee754 : Z)
| VStr (s : string)
| VList (l : list value)
| VDict (d : list (string * value)).

(** [type(v).__name__] *)
Definition type_name (v : value) : string :=
  match v with
  | VNone => "NoneType"
  | VBool _ => "bool"
  | VInt _ => "int"
  | VFloat _ => "float"
  | VStr _ => "str"
  | VList _ => "list"
  | VDict _ => "dict"
  end.

(** ** Python dicts with string keys *)

Module PyDict.

Abbreviation pydict A := (list (string * A)).

(** [k in d], and the value found: the building block of [d.get(k)],
    [d[k]] and [d.get(k, default)]. *)
Fixpoint find {A} (d : pydict A) (k : string) : option A :=
  match d with
  | [] => None
  | (k', v) :: d' => if String.eqb k' k then Some v else find d' k
  end.

(** [d[k] = v]: an existing key keeps its position, a new one goes last. *)
Fixpoint set {A} (d : pydict A) (k : string) (v : A) : pydict A :=
  match d with
  | [] => [(k, v)]
  | (k', v') :: d' =>
      if String.eqb k' k then (k, v) :: d' else (k', v') :: set d' k v
  end.

End PyDict.

Abbreviation dict := (PyDict.pydict value).

(** [d.get(k)]: [None] when the key is absent. *)
Definition dict_get (d : dict) (k : string) : value :=
  default VNone (PyDict.find d k).

(** ** Python strings *)

(** [s.startswith(p)] *)
Fixpoint startswith (s p : string) {struct p} : bool :=
  match p, s with
  | EmptyString, _ => true
  | String _ _, EmptyString => false
  | String a p', String b s' => Ascii.eqb a b && startswith s' p'
  end.

(** [s.split(sep)] for a separator of one character: one more part than
    there are separators, empty parts included. *)
Fixpoint split (sep : ascii) (s : string) : list string :=
  match s with
  | EmptyString => [EmptyString]
  | String c s' =>
      if Ascii.eqb c sep then EmptyString :: split sep s'
      else match split sep s' with
           | part :: parts => String c part :: parts
           | [] => [String c EmptyString]
           end
  end.

(** [sep not in s] *)
Fixpoint no_sep (sep : ascii) (s : string) : bool :=
  match s with
  | EmptyString => true
  | String c s' => negb (Ascii.eqb c sep) && no_sep sep s'
  end.

Definition slash : ascii := "/"%char.

(** ** The runtime and the world *)

(** A call of the storage service, as the handlers issue it. *)
Inductive store_call : Type :=
| PutItem (item : dict)
| Scan
| GetItem (key : value)
| UpdateItem (key name description status : value)
| DeleteItem (key : value).

(** What the program takes from outside the repository.
    - [json_loads s]: the value [json.loads(s)] returns, or the text of the
      exception it raises;
    - [json_dumps v]: the text [json.dumps(v)];
    - [uuid4 n]: [str(uuid.uuid4())] at the [n]-th draw of the process;
    - [store_fault c]: the text of the exception the storage client raises
      for the call [c], if it rejects it (an unsupported attribute type, the
      service being unreachable);
    - [key_rejected c]: the text of the validation error of the service for
      the call [c] when the value given for the hash key [id], which has
      type S, is not a string;
    - [scan_page items]: how many of the items of the table, in the order
      of the scan, the service puts in the first page of a scan (all of
      them when they weigh less than its limit of 1 MB). *)
Class Runtime : Type := {
  json_loads : string → string + value;
  json_dumps : value → string;
  uuid4 : nat → string;
  store_fault : store_call → option string;
  key_rejected : store_call → string;
  scan_page : list dict → nat
}.

(** The state a request can change: the table, the number of identifiers
    drawn, and what was printed. *)
Record world : Type := World {
  table : gmap string dict;
  drawn : nat;
  stdout : list string
}.

Definition with_table (w : world) (t : gmap string dict) : world :=
  {| table := t; drawn := drawn w; stdout := stdout w |}.

(** The world after one identifier was drawn. *)
Definition after_draw (w : world) : world :=
  {| table := table w; drawn := S (drawn w); stdout := stdout w |}.

(** ** The monad of handlers: state, and exceptions as their text *)

Definition M (A : Type) : Type := world → (string + A) * world.

Definition ret {A} (a : A) : M A := λ w, (inr a, w).

Definition raise {A} (e : string) : M A := λ w, (inl e, w).

Definition bind {A B} (m : M A) (k : A → M B) : M B :=
  λ w, match m w with
       | (inr a, w') => k a w'
       | (inl e, w') => (inl e, w')
       end.

(** A computation without effect on the world that may raise. *)
Definition lift {A} (r : string + A) : M A :=
  match r with
  | inl e => raise e
  | inr a => ret a
  end.

Notation "'do' x <- m ; k" := (bind m (λ x, k))
  (at level 10, x name, m at level 100, k at level 200).
Notation "m ;; k" := (bind m (λ _, k))
  (at level 100, k at level 200, right associativity).

(** ** Operations on values that can raise *)

(** [str(KeyError(k))] for a key without quotes or escapes. *)
Definition key_error (k : string) : string := "'" ++ k ++ "'".

(** [v[k]] for a string [k]. *)
Definition subscript (v : value) (k : string) : string + value :=
  match v with
  | VDict d =>
      match PyDict.find d k with
      | Some x => inr x
      | None => inl (key_error k)
      end
  | VStr _ => inl "string indices must be integers, not 'str'"
  | VList _ => inl "list indices must be integers or slices, not str"
  | _ => inl ("'" ++ type_name v ++ "' object is not subscriptable")
  end.

(** [v.get(k)] *)
Definition get_method (v : value) (k : string) : string + value :=
  match v with
  | VDict d => inr (dict_get d k)
  | _ => inl ("'" ++ type_name v ++ "' object has no attribute 'get'")
  end.

(** [event['pathParameters']['id']] *)
Definition path_id (event : dict) : string + value :=
  match subscript (VDict event) "pathParameters" with
  | inl e => inl e
  | inr pathParameters => subscript pathParameters "id"
  end.

(** [hash(v)] does not raise. *)
Definition hashable (v : value) : bool :=
  match v with
  | VList _ | VDict _ => false
  | _ => true
  end.

(** [json.loads(v)] *)
Definition loads {rt : Runtime} (v : value) : string + value :=
  match v with
  | VStr s => json_loads s
  | _ =>
      inl ("the JSON object must be str, bytes or bytearray, not "
           ++ type_name v)
  end.

(** The value holds a number, at any depth. *)
Fixpoint has_number (v : value) : bool :=
  match v with
  | VInt _ | VFloat _ => true
  | VList l => existsb has_number l
  | VDict d => existsb (λ kv, has_number (snd kv)) d
  | _ => false
  end.

(** [json.dumps(v)] for a value [v] that the table returned: the client
    has made a [Decimal] of each number of it, and [json.dumps] raises
    [TypeError] on a [Decimal]. *)
Definition dumps_fetched {rt : Runtime} (v : value) : string + string :=
  if has_number v
  then inl "Object of type Decimal is not JSON serializable"
  else inr (json_dumps v).

(** ** The table *)

(** The key of the call [c], which the service takes only as a string. *)
Definition str_key {rt : Runtime} (c : store_call) (key : value) : M string :=
  match key with
  | VStr k => ret k
  | _ => raise (key_rejected c)
  end.

(** The client raises before anything is stored. *)
Definition guard {rt : Runtime} (c : store_call) : M unit :=
  match store_fault c with
  | Some e => raise e
  | None => ret tt
  end.

Definition modify_table (f : gmap string dict → gmap string dict) : M unit :=
  λ w, (inr tt, with_table w (f (table w))).

(** [table.put_item(Item=item)]: the item replaces the one of the same key. *)
Definition put_item {rt : Runtime} (item : dict) : M unit :=
  guard (PutItem item);;
  do k <- str_key (PutItem item) (dict_get item "id");
  modify_table <[k := item]>.

(** [table.scan()['Items']]: the first page of the scan. *)
Definition scan {rt : Runtime} : M (list dict) :=
  guard Scan;;
  λ w, let items := (map_to_list (table w)).*2 in
       (inr (take (scan_page items) items), w).

(** [table.get_item(Key={'id': key}).get('Item')]: the attributes as the
    table holds them; its numbers are [Decimal]s for the program. *)
Definition get_item {rt : Runtime} (key : value) : M (option dict) :=
  guard (GetItem key);;
  do k <- str_key (GetItem key) key;
  λ w, (inr (table w !! k), w).

(** The item after [SET #n = :name, #d = :description, #s = :status]; with
    no item under the key the service starts from the key alone. *)
Definition set_fields (k : string) (name description status : value)
    (old : option dict) : dict :=
  let item := default [("id", VStr k)] old in
  PyDict.set (PyDict.set (PyDict.set item "name" name)
                "description" description) "status" status.

(** [table.update_item(Key={'id': key}, UpdateExpression=..., ...)] *)
Definition update_item {rt : Runtime} (key name description status : value)
    : M unit :=
  guard (UpdateItem key name description status);;
  do k <- str_key (UpdateItem key name description status) key;
  modify_table (λ t, <[k := set_fields k name description status (t !! k)]> t).

(** [table.delete_item(Key={'id': key})] *)
Definition delete_item {rt : Runtime} (key : value) : M unit :=
  guard (DeleteItem key);;
  do k <- str_key (DeleteItem key) key;
  modify_table (delete k).

(** [str(uuid.uuid4())] *)
Definition draw_uuid {rt : Runtime} : M string :=
  λ w, (inr (uuid4 (drawn w)), after_draw w).

(** ** Responses *)

Record response : Type := Response {
  statusCode : Z;
  body : string
}.

(** [{'message': text}] *)
Definition message (text : string) : value :=
  VDict [("message", VStr text)].

(** ** The handlers *)

Section Handlers.
Context {rt : Runtime}.

(** A handler takes the event. *)
Definition handler : Type := dict → M response.

(** The dict literal of lines 84 to 90. *)
Definition project_item (id : string)
    (name description status createdAt : value) : dict :=
  [("id", VStr id); ("name", name); ("description", description);
   ("status", status); ("createdAt", createdAt)].

Definition create_project : handler := λ event,
  do body <- lift (loads (dict_get event "body"));
  do id <- draw_uuid;
  do name <- lift (get_method body "name");
  do description <- lift (get_method body "description");
  do status <- lift (get_method body "status");
  do createdAt <- lift (get_method body "createdAt");
  let item := project_item id name description status createdAt in
  put_item item;;
  ret {| statusCode := 201; body := json_dumps (VDict item) |}.

Definition get_all_projects : handler := λ event,
  do items <- scan;
  do text <- lift (dumps_fetched (VList (VDict <$> items)));
  ret {| statusCode := 200; body := text |}.

(** [not item]: no item, or an empty one. *)
Definition not_item (item : option dict) : bool :=
  match item with
  | None | Some [] => true
  | Some (_ :: _) => false
  end.

Definition get_project_by_id : handler := λ event,
  do project_id <- lift (path_id event);
  do item <- get_item project_id;
  if not_item item then
    ret {| statusCode := 404;
           body := json_dumps (message "Project not found") |}
  else
    do text <- lift (dumps_fetched (VDict (default [] item)));
    ret {| statusCode := 200; body := text |}.

Definition update_project : handler := λ event,
  do project_id <- lift (path_id event);
  do body <- lift (loads (dict_get event "body"));
  do name <- lift (get_method body "name");
  do description <- lift (get_method body "description");
  do status <- lift (get_method body "status");
  update_item project_id name description status;;
  ret {| statusCode := 200;
         body := json_dumps (message "Project updated successfully") |}.

Definition delete_project : handler := λ event,
  do project_id <- lift (path_id event);
  delete_item project_id;;
  ret {| statusCode := 200;
         body := json_dumps (message "Project deleted successfully") |}.

(** ** The registry *)

(** [routes[path][http_method] = func] on a [defaultdict(dict)]. *)
Definition route (path http_method : string) (func : handler)
    (routes : PyDict.pydict (PyDict.pydict handler))
    : PyDict.pydict (PyDict.pydict handler) :=
  PyDict.set routes path
    (PyDict.set (default [] (PyDict.find routes path)) http_method func).

(** The registry once the module is loaded: the decorators in the order
    of the file. *)
Definition routes : PyDict.pydict (PyDict.pydict handler) :=
  route "/projects/{id}" "DELETE" delete_project
    (route "/projects/{id}" "PUT" update_project
       (route "/projects/{id}" "GET" get_project_by_id
          (route "/projects" "GET" get_all_projects
             (route "/projects" "POST" create_project [])))).

(** [d.get(key)] for a key of any type on a dict with string keys: an
    unhashable key raises, a key that is not a string is not found. *)
Definition get_any {A} (d : PyDict.pydict A) (key : value)
    : string + option A :=
  if hashable key then
    match key with
    | VStr k => inr (PyDict.find d k)
    | _ => inr None
    end
  else inl ("unhashable type: '" ++ type_name key ++ "'").

(** ** The router *)

(** Lines 57 to 63: [(dynamic_path, path_parameters)] for a path that is
    a string. *)
Definition path_parameters_of (path : string) : option string * value :=
  if startswith path "/projects/" then
    let path_parts := split slash path in
    if (length path_parts =? 3)%nat
       && String.eqb (nth 1 path_parts EmptyString) "projects"
    then (Some "/projects/{id}",
          VDict [("id", VStr (nth 2 path_parts EmptyString))])
    else (None, VNone)
  else (None, VNone).

(** [dynamic_path if dynamic_path else path] *)
Definition handler_path_of (dynamic_path : option string) (path : string)
    : string :=
  match dynamic_path with
  | Some p => if String.eqb p EmptyString then path else p
  | None => path
  end.

(** The function that [handle_errors] decorates. *)
Definition lambda_handler_body (event : dict) (context : value)
    : M response :=
  let http_method := dict_get event "httpMethod" in
  match dict_get event "path" with
  | VStr path =>
      let '(dynamic_path, path_parameters) := path_parameters_of path in
      let handler_path := handler_path_of dynamic_path path in
      do handler <-
        lift (get_any (default [] (PyDict.find routes handler_path))
                http_method);
      match handler with
      | None =>
          ret {| statusCode := 404;
                 body := json_dumps (message "Not Found") |}
      | Some handler =>
          handler (PyDict.set event "pathParameters" path_parameters)
      end
  | path =>
      raise ("'" ++ type_name path
             ++ "' object has no attribute 'startswith'")
  end.

(** ** The error wrapper *)

Definition print (line : string) (w : world) : world :=
  {| table := table w; drawn := drawn w; stdout := stdout w ++ [line] |}.

(** The response of the [except] branch for an exception of text [e]. *)
Definition internal_error (e : string) : response :=
  {| statusCode := 500;
     body := json_dumps (message ("An internal error occurred: " ++ e)) |}.

Definition handle_errors (func : dict → value → M response)
    (event : dict) (context : value) (w : world) : response * world :=
  match func event context w with
  | (inr result, w') => (result, w')
  | (inl e, w') =>
      (internal_error e, print ("Error executing function: " ++ e) w')
  end.

(** The entry point. *)
Definition lambda_handler : dict → value → world → response * world :=
  handle_errors lambda_handler_body.

End Handlers.

(** ** A runtime and events for the examples *)

Module Sample.

Definition dquote : string := String (ascii_of_nat 34) EmptyString.

Definition quoted (s : string) : string := dquote ++ s ++ dquote.

Definition join (parts : list string) : string :=
  match parts with
  | [] => EmptyString
  | p :: ps => foldl (λ acc q, acc ++ ", " ++ q) p ps
  end.

(** The text of [json.dumps] on the values of the examples: [None],
    booleans, integers, strings without a character to escape, and lists
    and dicts of these.  A float, which no example uses, is shown by its
    bit pattern. *)
Fixpoint dumps (v : value) : string :=
  match v with
  | VNone => "null"
  | VBool true => "true"
  | VBool false => "false"
  | VInt n => pretty n
  | VFloat bits => "float.fromhex(" ++ pretty bits ++ ")"
  | VStr s => quoted s
  | VList l => "[" ++ join (map dumps l) ++ "]"
  | VDict d =>
      "{" ++ join (map (λ kv, quoted (fst kv) ++ ": " ++ dumps (snd kv)) d)
      ++ "}"
  end.

(** The body of the scenario of the specification, parsed. *)
Definition project_A : value :=
  VDict [("name", VStr "A"); ("description", VStr "d");
         ("status", VStr "open"); ("createdAt", VStr "2024-01-01")].

Definition partial_update : value :=
  VDict [("name", VStr "B"); ("status", VStr "closed")].

(** [json.loads] on the texts of the examples; any other text stands for
    one that is not JSON. *)
Definition loads_text (s : string) : string + value :=
  if String.eqb s (dumps project_A) then inr project_A
  else if String.eqb s (dumps partial_update) then inr partial_update
  else if String.eqb s "{}" then inr (VDict [])
  else if String.eqb s "[]" then inr (VList [])
  else inl "Expecting value: line 1 column 1 (char 0)".

Definition uuid (n : nat) : string :=
  "6f1c2a9e-0000-4000-8000-" ++ pretty n.

Definition validation_error : string :=
  "An error occurred (ValidationException): "
  ++ "The provided key element does not match the schema".

(** The service accepts every call. *)
Definition runtime : Runtime := {|
  json_loads := loads_text;
  json_dumps := dumps;
  uuid4 := uuid;
  store_fault := λ _, None;
  key_rejected := λ _, validation_error;
  scan_page := length
|}.

(** The service is unreachable. *)
Definition offline : Runtime := {|
  json_loads := loads_text;
  json_dumps := dumps;
  uuid4 := uuid;
  store_fault := λ _, Some "Could not connect to the endpoint URL";
  key_rejected := λ _, validation_error;
  scan_page := length
|}.

Definition request (http_method path : string) (body : value) : dict :=
  [("httpMethod", VStr http_method); ("path", VStr path); ("body", body)].

Definition stored_A : dict :=
  [("id", VStr "p1"); ("name", VStr "A"); ("description", VStr "d");
   ("status", VStr "open"); ("createdAt", VStr "2024-01-01")].

Definition empty_world : world :=
  {| table := ∅; drawn := 0; stdout := [] |}.

Definition world_A : world :=
  {| table := {[ "p1" := stored_A ]}; drawn := 0; stdout := [] |}.

End Sample.
(** ** Requests *)

(** The event carries this method and this path. *)
Definition requests (http_method path : string) (event : dict) : Prop :=
  dict_get event "httpMethod" = VStr http_method
  ∧ dict_get event "path" = VStr path.

(** The world after the wrapper has caught [e] in the world [w]. *)
Definition caught (e : string) (w : world) : world :=
  print ("Error executing function: " ++ e) w.

(** ** The invariant of the table *)

(** The service stores an item under the value of its hash key: the item
    found under [k] has the attribute [id] equal to [k]. *)
Definition wf_table (t : gmap string dict) : Prop :=
  ∀ k item, t !! k = Some item → PyDict.find item "id" = Some (VStr k).

(** The computation keeps the invariant of the table. *)
Definition preserves {A} (m : M A) : Prop :=
  ∀ w, wf_table (table w) → wf_table (table (m w).2).

(** ** The routing of the specification *)

(** The dispatch described in section 4.1 and the table of section 4.3 of
    the specification, written from its words, to be compared with the
    router above. *)
Module Spec.

(** The rest of [s] after the prefix [p], if [s] starts with it. *)
Fixpoint removeprefix (p s : string) {struct p} : option string :=
  match p, s with
  | EmptyString, _ => Some s
  | String _ _, EmptyString => None
  | String a p', String b s' =>
      if Ascii.eqb a b then removeprefix p' s' else None
  end.

(** Steps 1 and 2: a path [/projects/<segment>] whose segment has no
    further ['/'] stands for the dynamic pattern; any other path stands
    for itself. *)
Definition pattern (path : string) : string :=
  match removeprefix "/projects/" path with
  | Some segment =>
      if no_sep slash segment then "/projects/{id}" else path
  | None => path
  end.

(** The methods registered under each pattern. *)
Definition dispatch_table : PyDict.pydict (list string) :=
  [("/projects", ["POST"; "GET"]);
   ("/projects/{id}", ["GET"; "PUT"; "DELETE"])].

(** Step 3: the pattern is in the table and the method is registered
    under it. *)
Definition registered (pattern http_method : string) : bool :=
  match PyDict.find dispatch_table pattern with
  | Some methods => existsb (λ m, String.eqb m http_method) methods
  | None => false
  end.

End Spec.

(** ** Outcomes of a handler *)

(** The part [f] of the world is the same after as before. *)
Definition unchanged {B} (f : world → B) : relation world :=
  λ w w', f w' = f w.

(** Whatever it returns or raises, the computation takes a world to one
    related by [R]. *)
Definition keeps {A} (R : relation world) (m : M A) : Prop :=
  ∀ w, R w (m w).2.

(** What a handler can do to a world: it prints nothing; when it raises
    the table is as before; when it returns, the status is [ok], or it is
    404 and the world is as before. *)
Definition settles (ok : Z) (m : M response) : Prop :=
  ∀ w, match m w with
       | (inl _, w') => table w' = table w ∧ stdout w' = stdout w
       | (inr r, w') =>
           stdout w' = stdout w
           ∧ (statusCode r = ok ∨ (statusCode r = 404 ∧ w' = w))
       end.

(** The status that the handlers registered under a method return when
    they succeed. *)
Definition success_status (http_method : string) : Z :=
  if String.eqb http_method "POST" then 201 else 200.

(** ** Further events for the examples *)

Module MoreSamples.

(** A body that also names an [id] and a [createdAt]. *)
Definition tagged_update : value :=
  VDict [("id", VStr "p9"); ("name", VStr "B"); ("status", VStr "closed");
         ("createdAt", VStr "1999-12-31")].

(** The body of the scenario with an [id] of the caller's choice. *)
Definition project_A_with_id : value :=
  VDict [("id", VStr "mine"); ("name", VStr "A"); ("description", VStr "d");
         ("status", VStr "open"); ("createdAt", VStr "2024-01-01")].

Definition loads_text (s : string) : string + value :=
  if String.eqb s (Sample.dumps tagged_update) then inr tagged_update
  else if String.eqb s (Sample.dumps project_A_with_id)
       then inr project_A_with_id
       else Sample.loads_text s.

(** The runtime of the examples, which also reads these two bodies. *)
Definition runtime : Runtime := {|
  json_loads := loads_text;
  json_dumps := Sample.dumps;
  uuid4 := Sample.uuid;
  store_fault := λ _, None;
  key_rejected := λ _, Sample.validation_error;
  scan_page := length
|}.

End MoreSamples.

(** ** The lookup of a handler *)

(** [routes.get(path, {}).get(http_method)] of line 67, for a method that
    is a string. *)
Definition lookup_handler {A} (routes : PyDict.pydict (PyDict.pydict A))
    (path http_method : string) : option A :=
  PyDict.find (default [] (PyDict.find routes path)) http_method.

(** ** Items that hold a number *)

Module Numbers.

(** A body of create whose name is the number 1. *)
Definition numbered_project : value :=
  VDict [("name", VInt 1); ("description", VStr "d");
         ("status", VStr "open"); ("createdAt", VStr "2024-01-01")].

Definition loads_text (s : string) : string + value :=
  if String.eqb s (Sample.dumps numbered_project) then inr numbered_project
  else Sample.loads_text s.

(** The runtime of the examples, which also reads that body. *)
Definition runtime : Runtime := {|
  json_loads := loads_text;
  json_dumps := Sample.dumps;
  uuid4 := Sample.uuid;
  store_fault := λ _, None;
  key_rejected := λ _, Sample.validation_error;
  scan_page := length
|}.

(** The item that the create of that body stores on the first draw. *)
Definition stored_numbered : dict :=
  [("id", VStr "6f1c2a9e-0000-4000-8000-0"); ("name", VInt 1);
   ("description", VStr "d"); ("status", VStr "open");
   ("createdAt", VStr "2024-01-01")].

(** The world that this create leaves from the empty one. *)
Definition world_numbered : world :=
  {| table := {[ "6f1c2a9e-0000-4000-8000-0" := stored_numbered ]};
     drawn := 1; stdout := [] |}.

(** A runtime whose generator returns an id that [Sample.world_A] holds. *)
Definition colliding : Runtime := {|
  json_loads := Sample.loads_text;
  json_dumps := Sample.dumps;
  uuid4 := λ _, "p1";
  store_fault := λ _, None;
  key_rejected := λ _, Sample.validation_error;
  scan_page := length
|}.

(** A runtime whose scan returns pages of one item. *)
Definition paged : Runtime := {|
  json_loads := Sample.loads_text;
  json_dumps := Sample.dumps;
  uuid4 := Sample.uuid;
  store_fault := λ _, None;
  key_rejected := λ _, Sample.validation_error;
  scan_page := λ _, 1%nat
|}.

End Numbers.

(** * Properties *)

(** ** Dicts *)

Lemma find_set_eq {A} (d : PyDict.pydict A) k v :
  PyDict.find (PyDict.set d k v) k = Some v.
Proof.
  induction d as [|[k' v'] d IH]; simpl.
  - by rewrite String.eqb_refl.
  - destruct (String.eqb k' k) eqn:E; simpl.
    + by rewrite String.eqb_refl.
    + by rewrite E.
Qed.

Lemma find_set_ne {A} (d : PyDict.pydict A) k k' v :
  k ≠ k' → PyDict.find (PyDict.set d k v) k' = PyDict.find d k'.
Proof.
  intros Hne. induction d as [|[k0 v0] d IH]; simpl.
  - by apply String.eqb_neq in Hne as ->.
  - destruct (String.eqb k0 k) eqn:E; simpl.
    + apply String.eqb_eq in E as ->.
      by apply String.eqb_neq in Hne as ->.
    + by rewrite IH.
Qed.

Lemma set_not_nil {A} (d : PyDict.pydict A) k v : PyDict.set d k v ≠ [].
Proof. destruct d as [|[k' v'] d]; simpl; [done|]. by case_match. Qed.

(** ** Splitting a path *)

Lemma split_no_sep sep s : no_sep sep s = true → split sep s = [s].
Proof.
  induction s as [|c s IH]; simpl; [done|].
  destruct (Ascii.eqb c sep); simpl; [done|].
  intros Hs. by rewrite (IH Hs).
Qed.

Lemma split_length_pos sep s : (1 ≤ length (split sep s))%nat.
Proof.
  induction s as [|c s IH]; simpl; [lia|].
  destruct (Ascii.eqb c sep); simpl; [lia|].
  destruct (split sep s); simpl in *; lia.
Qed.

Lemma split_length_app sep a b :
  length (split sep (a ++ String sep b))
  = (length (split sep a) + length (split sep b))%nat.
Proof.
  induction a as [|c a IH]; simpl.
  - by rewrite Ascii.eqb_refl.
  - destruct (Ascii.eqb c sep); simpl; [by rewrite IH|].
    pose proof (split_length_pos sep a) as Ha.
    pose proof (split_length_pos sep (a ++ String sep b)) as Hab.
    destruct (split sep a), (split sep (a ++ String sep b));
      simpl in *; lia.
Qed.

Lemma split_projects x :
  split slash ("/projects/" ++ x)
  = EmptyString :: "projects" :: split slash x.
Proof. reflexivity. Qed.

Lemma startswith_projects x :
  startswith ("/projects/" ++ x) "/projects/" = true.
Proof. reflexivity. Qed.

Section Router.
Context {rt : Runtime}.

Lemma path_parameters_of_segment x :
  no_sep slash x = true →
  path_parameters_of ("/projects/" ++ x)
  = (Some "/projects/{id}", VDict [("id", VStr x)]).
Proof.
  intros Hx. unfold path_parameters_of.
  rewrite startswith_projects, split_projects, (split_no_sep _ _ Hx).
  reflexivity.
Qed.

Lemma path_parameters_of_nested x y :
  path_parameters_of ("/projects/" ++ x ++ "/" ++ y) = (None, VNone).
Proof.
  unfold path_parameters_of.
  rewrite startswith_projects, split_projects.
  change (x ++ "/" ++ y) with (x ++ String slash y).
  pose proof (split_length_app slash x y) as Hl.
  pose proof (split_length_pos slash x).
  pose proof (split_length_pos slash y).
  destruct (length (EmptyString :: "projects"
                      :: split slash (x ++ String slash y)) =? 3)%nat
    eqn:E; [|done].
  apply Nat.eqb_eq in E. simpl in E. lia.
Qed.

(** The registry, computed. *)
Lemma routes_eq :
  routes
  = [("/projects", [("POST", create_project); ("GET", get_all_projects)]);
     ("/projects/{id}",
      [("GET", get_project_by_id); ("PUT", update_project);
       ("DELETE", delete_project)])].
Proof. reflexivity. Qed.

Lemma routes_projects :
  PyDict.find routes "/projects"
  = Some [("POST", create_project); ("GET", get_all_projects)].
Proof. reflexivity. Qed.

Lemma routes_projects_id :
  PyDict.find routes "/projects/{id}"
  = Some [("GET", get_project_by_id); ("PUT", update_project);
          ("DELETE", delete_project)].
Proof. reflexivity. Qed.

Lemma routes_other path :
  path ≠ "/projects" → path ≠ "/projects/{id}" →
  PyDict.find routes path = None.
Proof.
  intros H1 H2. rewrite routes_eq. unfold PyDict.find.
  apply not_eq_sym, String.eqb_neq in H1.
  apply not_eq_sym, String.eqb_neq in H2.
  by rewrite H1, H2.
Qed.

(** What the entry point does once the path is known to be a string:
    the run of the router, before the wrapper. *)
Lemma lambda_handler_body_str event context path :
  dict_get event "path" = VStr path →
  lambda_handler_body event context
  = (do handler <-
       lift (get_any
               (default []
                  (PyDict.find routes
                     (handler_path_of (path_parameters_of path).1 path)))
               (dict_get event "httpMethod"));
     match handler with
     | None =>
         ret {| statusCode := 404;
                body := json_dumps (message "Not Found") |}
     | Some handler =>
         handler (PyDict.set event "pathParameters"
                    (path_parameters_of path).2)
     end).
Proof.
  intros Hp. unfold lambda_handler_body. rewrite Hp.
  by destruct (path_parameters_of path).
Qed.

(** A request on [/projects/<x>] reaches the handler registered for its
    method under [/projects/{id}], with [id] bound to [x]. *)
Lemma lambda_handler_by_id event context w x http_method handler :
  no_sep slash x = true →
  dict_get event "path" = VStr ("/projects/" ++ x) →
  dict_get event "httpMethod" = VStr http_method →
  PyDict.find [("GET", get_project_by_id); ("PUT", update_project);
               ("DELETE", delete_project)] http_method = Some handler →
  lambda_handler event context w
  = handle_errors (λ event _, handler event)
      (PyDict.set event "pathParameters" (VDict [("id", VStr x)]))
      context w.
Proof.
  intros Hx Hp Hm Hh. unfold lambda_handler, handle_errors.
  rewrite (lambda_handler_body_str _ _ _ Hp), Hm.
  rewrite (path_parameters_of_segment _ Hx). simpl handler_path_of.
  rewrite routes_projects_id. simpl default. unfold get_any. simpl.
  unfold bind. simpl in Hh |- *. rewrite Hh. reflexivity.
Qed.

End Router.

(** C1. For a path [/projects/<x>] where [<x>] has no ['/'] (the empty
    [<x>] of [/projects/] included) the router takes the dynamic pattern
    [/projects/{id}] and binds the path parameter [id] to [<x>], and the
    entry point runs the by-id handler of GET, PUT and DELETE on the event
    with these path parameters; for a path [/projects/<x>/<y>] the dynamic
    pattern is not taken. *)
Theorem C1_dynamic_pattern {rt : Runtime} :
  (∀ x, no_sep slash x = true →
     path_parameters_of ("/projects/" ++ x)
     = (Some "/projects/{id}", VDict [("id", VStr x)])
     ∧ handler_path_of (Some "/projects/{id}") ("/projects/" ++ x)
       = "/projects/{id}"
     ∧ ∀ event context w,
         dict_get event "path" = VStr ("/projects/" ++ x) →
         let bound :=
           PyDict.set event "pathParameters" (VDict [("id", VStr x)]) in
         (dict_get event "httpMethod" = VStr "GET" →
          lambda_handler event context w
          = handle_errors (λ event _, get_project_by_id event)
              bound context w)
         ∧ (dict_get event "httpMethod" = VStr "PUT" →
            lambda_handler event context w
            = handle_errors (λ event _, update_project event)
                bound context w)
         ∧ (dict_get event "httpMethod" = VStr "DELETE" →
            lambda_handler event context w
            = handle_errors (λ event _, delete_project event)
                bound context w))
  ∧ (∀ x y,
       path_parameters_of ("/projects/" ++ x ++ "/" ++ y) = (None, VNone)).
Proof.
  split.
  - intros x Hx. split; [by apply path_parameters_of_segment|].
    split; [done|]. intros event context w Hp bound.
    repeat split; intros Hm;
      by apply (lambda_handler_by_id _ _ _ x _ _ Hx Hp Hm).
  - apply path_parameters_of_nested.
Qed.

(** The path [/projects/] binds [id] to the empty string. *)
Lemma C1_dynamic_pattern_witness :
  path_parameters_of "/projects/"
  = (Some "/projects/{id}", VDict [("id", VStr EmptyString)]).
Proof.
  exact (proj1 (proj1 (C1_dynamic_pattern (rt := Sample.runtime)) EmptyString
                  eq_refl)).
Defined.

(** ** The router and the routing of the specification *)

Lemma startswith_removeprefix s p :
  startswith s p = bool_decide (is_Some (Spec.removeprefix p s)).
Proof.
  revert s. induction p as [|a p IH]; intros s; simpl.
  - done.
  - destruct s as [|b s]; simpl; [done|].
    destruct (Ascii.eqb a b); simpl; [apply IH|done].
Qed.

Lemma removeprefix_Some p s r : Spec.removeprefix p s = Some r → s = p ++ r.
Proof.
  revert s. induction p as [|a p IH]; intros s; simpl.
  - by intros [= ->].
  - destruct s as [|b s]; [done|].
    destruct (Ascii.eqb a b) eqn:E; [|done].
    apply Ascii.eqb_eq in E as ->. intros Hr. by rewrite (IH _ Hr).
Qed.

Lemma startswith_app s p q :
  startswith s (p ++ q) = true → startswith s p = true.
Proof.
  revert s. induction p as [|a p IH]; intros s; simpl; [done|].
  destruct s as [|b s]; [done|].
  intros [-> Hs]%andb_true_iff. by rewrite (IH _ Hs).
Qed.

Lemma no_sep_false sep s :
  no_sep sep s = false → ∃ a b, s = a ++ String sep b.
Proof.
  induction s as [|c s IH]; simpl; [done|].
  destruct (Ascii.eqb c sep) eqn:E; simpl.
  - apply Ascii.eqb_eq in E as ->. intros _. by exists EmptyString, s.
  - intros Hs. destruct (IH Hs) as (a & b & ->). by exists (String c a), b.
Qed.

Section RouterSpec.
Context {rt : Runtime}.

(** The pattern the router looks up is the pattern of the specification. *)
Lemma handler_path_of_spec path :
  handler_path_of (path_parameters_of path).1 path = Spec.pattern path.
Proof.
  unfold Spec.pattern.
  destruct (Spec.removeprefix "/projects/" path) as [segment|] eqn:E.
  - apply removeprefix_Some in E as ->.
    destruct (no_sep slash segment) eqn:Hs.
    + by rewrite (path_parameters_of_segment _ Hs).
    + destruct (no_sep_false _ _ Hs) as (a & b & ->).
      change (a ++ String slash b) with (a ++ "/" ++ b).
      by rewrite (path_parameters_of_nested a b).
  - unfold path_parameters_of. rewrite startswith_removeprefix, E.
    rewrite bool_decide_eq_false_2; [done|]. by intros [? ?].
Qed.

(** A method has a handler in the registry exactly when the table of the
    specification registers it. *)
Lemma routes_registered pattern http_method :
  bool_decide
    (is_Some (PyDict.find (default [] (PyDict.find routes pattern))
                http_method))
  = Spec.registered pattern http_method.
Proof.
  rewrite routes_eq. unfold Spec.registered, Spec.dispatch_table.
  cbn -[String.eqb].
  destruct (String.eqb "/projects" pattern); cbn -[String.eqb].
  - destruct (String.eqb "POST" http_method); [done|].
    by destruct (String.eqb "GET" http_method).
  - destruct (String.eqb "/projects/{id}" pattern); cbn -[String.eqb];
      [|done].
    destruct (String.eqb "GET" http_method); [done|].
    destruct (String.eqb "PUT" http_method); [done|].
    by destruct (String.eqb "DELETE" http_method).
Qed.

Lemma routes_not_registered pattern http_method :
  Spec.registered pattern http_method = false →
  PyDict.find (default [] (PyDict.find routes pattern)) http_method = None.
Proof.
  rewrite <- routes_registered. intros Hr%bool_decide_eq_false.
  by apply eq_None_not_Some.
Qed.

(** The entry point answers 404 when the lookup of line 67 finds nothing. *)
Lemma lambda_handler_not_found event context w path :
  dict_get event "path" = VStr path →
  get_any (default [] (PyDict.find routes (Spec.pattern path)))
    (dict_get event "httpMethod") = inr None →
  lambda_handler event context w
  = ({| statusCode := 404; body := json_dumps (message "Not Found") |}, w).
Proof.
  intros Hp Hg. unfold lambda_handler, handle_errors.
  rewrite (lambda_handler_body_str _ _ _ Hp), handler_path_of_spec, Hg.
  reflexivity.
Qed.

Lemma get_any_not_registered pattern http_method :
  hashable http_method = true →
  (∀ m, http_method = VStr m → Spec.registered pattern m = false) →
  get_any (default [] (PyDict.find routes pattern)) http_method = inr None.
Proof.
  intros Hh Hr. unfold get_any. rewrite Hh.
  destruct http_method; try done.
  by rewrite (routes_not_registered _ _ (Hr _ eq_refl)).
Qed.

Lemma not_projects_not_registered path http_method :
  startswith path "/projects" = false →
  Spec.registered (Spec.pattern path) http_method = false.
Proof.
  intros Hs.
  assert (Spec.pattern path = path) as ->.
  { unfold Spec.pattern.
    destruct (Spec.removeprefix "/projects/" path) eqn:E; [|done].
    pose proof (startswith_removeprefix path "/projects/") as Hp.
    rewrite E, bool_decide_eq_true_2 in Hp by eauto.
    apply (startswith_app path "/projects" "/") in Hp. congruence. }
  unfold Spec.registered, Spec.dispatch_table. cbn -[String.eqb].
  destruct (String.eqb "/projects" path) eqn:E1.
  { apply String.eqb_eq in E1 as <-. done. }
  destruct (String.eqb "/projects/{id}" path) eqn:E2; [|done].
  apply String.eqb_eq in E2 as <-. done.
Qed.

End RouterSpec.

(** C2. For an event whose path is a string and whose method can be looked
    up, if the table of the specification has no handler for the pattern of
    the path and the method (the pattern is not in the table, or the method,
    which may be absent, is not registered under it), the entry point
    returns status 404 with the body [{"message": "Not Found"}] and leaves
    the world as it was; so it does for every path that does not start with
    [/projects]. *)
Theorem C2_not_found {rt : Runtime} event context w path :
  dict_get event "path" = VStr path →
  hashable (dict_get event "httpMethod") = true →
  ((∀ m, dict_get event "httpMethod" = VStr m →
         Spec.registered (Spec.pattern path) m = false)
   ∨ startswith path "/projects" = false) →
  lambda_handler event context w
  = ({| statusCode := 404;
        body := json_dumps (VDict [("message", VStr "Not Found")]) |}, w).
Proof.
  intros Hp Hh Hr. apply (lambda_handler_not_found _ _ _ _ Hp).
  apply get_any_not_registered; [done|].
  destruct Hr as [Hr|Hs]; [done|].
  intros m _. by apply not_projects_not_registered.
Qed.

(** PATCH is not registered under [/projects]. *)
Lemma C2_not_found_witness :
  lambda_handler (rt := Sample.runtime)
    (Sample.request "PATCH" "/projects" VNone) VNone Sample.world_A
  = ({| statusCode := 404;
        body := Sample.dumps (VDict [("message", VStr "Not Found")]) |},
     Sample.world_A).
Proof.
  apply (C2_not_found (rt := Sample.runtime) _ _ _ "/projects");
    [reflexivity|reflexivity|].
  left. intros m [= <-]. reflexivity.
Defined.

(** ** Runs of the handlers *)

(** Unfolds the monad and the operations of the table, and nothing of the
    data they carry. *)
Ltac run_monad :=
  cbv beta iota zeta
    delta [bind lift ret raise guard draw_uuid get_method str_key
           modify_table put_item get_item update_item delete_item scan
           loads dumps_fetched].

Section Runs.
Context {rt : Runtime}.

(** *** create *)

Lemma create_project_run event w s b :
  dict_get event "body" = VStr s →
  json_loads s = inr (VDict b) →
  let id := uuid4 (drawn w) in
  let item :=
    project_item id (dict_get b "name") (dict_get b "description")
      (dict_get b "status") (dict_get b "createdAt") in
  store_fault (PutItem item) = None →
  create_project event w
  = (inr {| statusCode := 201; body := json_dumps (VDict item) |},
     with_table (after_draw w) (<[id := item]> (table w))).
Proof.
  intros Hb Hs id item Hc. unfold item, id in *. clear item id.
  unfold create_project. run_monad. by rewrite Hb, Hs, Hc.
Qed.

Lemma create_project_bad_json event w s e :
  dict_get event "body" = VStr s →
  json_loads s = inl e →
  create_project event w = (inl e, w).
Proof.
  intros Hb Hs. unfold create_project. run_monad. by rewrite Hb, Hs.
Qed.

Lemma create_project_no_body event w :
  dict_get event "body" = VNone →
  create_project event w
  = (inl "the JSON object must be str, bytes or bytearray, not NoneType",
     w).
Proof. intros Hb. unfold create_project. run_monad. by rewrite Hb. Qed.

Lemma create_project_rejected event w s b e :
  dict_get event "body" = VStr s →
  json_loads s = inr (VDict b) →
  store_fault
    (PutItem (project_item (uuid4 (drawn w)) (dict_get b "name")
                (dict_get b "description") (dict_get b "status")
                (dict_get b "createdAt"))) = Some e →
  create_project event w = (inl e, after_draw w).
Proof.
  intros Hb Hs Hc. unfold create_project. run_monad.
  by rewrite Hb, Hs, Hc.
Qed.

(** *** list *)

Lemma get_all_projects_rejected event w e :
  store_fault Scan = Some e → get_all_projects event w = (inl e, w).
Proof.
  intros Hc. unfold get_all_projects. run_monad. by rewrite Hc.
Qed.

(** *** get by id *)

Lemma get_project_by_id_run event w pid :
  path_id event = inr (VStr pid) →
  store_fault (GetItem (VStr pid)) = None →
  get_project_by_id event w
  = (if not_item (table w !! pid)
     then inr {| statusCode := 404;
                 body := json_dumps (message "Project not found") |}
     else if has_number (VDict (default [] (table w !! pid)))
          then inl "Object of type Decimal is not JSON serializable"
          else inr {| statusCode := 200;
                      body := json_dumps
                                (VDict (default [] (table w !! pid))) |},
     w).
Proof.
  intros Hid Hc. unfold get_project_by_id. run_monad. rewrite Hid, Hc.
  destruct (not_item (table w !! pid)); [done|].
  by destruct (has_number (VDict (default [] (table w !! pid)))).
Qed.

Lemma get_project_by_id_rejected event w pid e :
  path_id event = inr (VStr pid) →
  store_fault (GetItem (VStr pid)) = Some e →
  get_project_by_id event w = (inl e, w).
Proof.
  intros Hid Hc. unfold get_project_by_id. run_monad. by rewrite Hid, Hc.
Qed.

(** *** update *)

Lemma update_project_run event w pid s b :
  path_id event = inr (VStr pid) →
  dict_get event "body" = VStr s →
  json_loads s = inr (VDict b) →
  store_fault
    (UpdateItem (VStr pid) (dict_get b "name") (dict_get b "description")
       (dict_get b "status")) = None →
  update_project event w
  = (inr {| statusCode := 200;
            body := json_dumps (message "Project updated successfully") |},
     with_table w
       (<[pid := set_fields pid (dict_get b "name")
                   (dict_get b "description") (dict_get b "status")
                   (table w !! pid)]> (table w))).
Proof.
  intros Hid Hb Hs Hc. unfold update_project. run_monad.
  by rewrite Hid, Hb, Hs, Hc.
Qed.

Lemma update_project_bad_json event w pid s e :
  path_id event = inr (VStr pid) →
  dict_get event "body" = VStr s →
  json_loads s = inl e →
  update_project event w = (inl e, w).
Proof.
  intros Hid Hb Hs. unfold update_project. run_monad.
  by rewrite Hid, Hb, Hs.
Qed.

Lemma update_project_rejected event w pid s b e :
  path_id event = inr (VStr pid) →
  dict_get event "body" = VStr s →
  json_loads s = inr (VDict b) →
  store_fault
    (UpdateItem (VStr pid) (dict_get b "name") (dict_get b "description")
       (dict_get b "status")) = Some e →
  update_project event w = (inl e, w).
Proof.
  intros Hid Hb Hs Hc. unfold update_project. run_monad.
  by rewrite Hid, Hb, Hs, Hc.
Qed.

(** *** delete *)

Lemma delete_project_run event w pid :
  path_id event = inr (VStr pid) →
  store_fault (DeleteItem (VStr pid)) = None →
  delete_project event w
  = (inr {| statusCode := 200;
            body := json_dumps (message "Project deleted successfully") |},
     with_table w (delete pid (table w))).
Proof.
  intros Hid Hc. unfold delete_project. run_monad. by rewrite Hid, Hc.
Qed.

Lemma delete_project_rejected event w pid e :
  path_id event = inr (VStr pid) →
  store_fault (DeleteItem (VStr pid)) = Some e →
  delete_project event w = (inl e, w).
Proof.
  intros Hid Hc. unfold delete_project. run_monad. by rewrite Hid, Hc.
Qed.

(** *** From the entry point to the handlers *)

Lemma path_id_bound event x :
  path_id (PyDict.set event "pathParameters" (VDict [("id", VStr x)]))
  = inr (VStr x).
Proof.
  unfold path_id, subscript. by rewrite find_set_eq.
Qed.

Lemma dict_get_bound event v k :
  k ≠ "pathParameters" →
  dict_get (PyDict.set event "pathParameters" v) k = dict_get event k.
Proof.
  intros Hk. unfold dict_get. by rewrite find_set_ne.
Qed.

(** A request on [/projects] reaches the handler registered for its
    method, with no path parameters. *)
Lemma lambda_handler_projects event context w http_method handler :
  requests http_method "/projects" event →
  PyDict.find [("POST", create_project); ("GET", get_all_projects)]
    http_method = Some handler →
  lambda_handler event context w
  = handle_errors (λ event _, handler event)
      (PyDict.set event "pathParameters" VNone) context w.
Proof.
  intros [Hm Hp] Hh. unfold lambda_handler, handle_errors.
  rewrite (lambda_handler_body_str _ _ _ Hp), Hm.
  change (path_parameters_of "/projects") with (@None string, VNone).
  simpl handler_path_of. rewrite routes_projects. simpl default.
  unfold get_any. simpl. unfold bind. simpl in Hh |- *. rewrite Hh.
  reflexivity.
Qed.

End Runs.

(** ** The error wrapper at the entry point *)

Section Wrapper.
Context {rt : Runtime}.

Lemma handle_errors_raised func event context w e w' :
  func event context w = (inl e, w') →
  handle_errors func event context w = (internal_error e, caught e w').
Proof. intros Hf. unfold handle_errors. by rewrite Hf. Qed.

Lemma handle_errors_returned func event context w r w' :
  func event context w = (inr r, w') →
  handle_errors func event context w = (r, w').
Proof. intros Hf. unfold handle_errors. by rewrite Hf. Qed.

(** The path is not a string: line 59 raises [AttributeError]. *)
Lemma lambda_handler_no_startswith event context w :
  (∀ path, dict_get event "path" ≠ VStr path) →
  lambda_handler event context w
  = (let e := "'" ++ type_name (dict_get event "path")
              ++ "' object has no attribute 'startswith'" in
     (internal_error e, caught e w)).
Proof.
  intros Hp. unfold lambda_handler, handle_errors, lambda_handler_body.
  destruct (dict_get event "path") eqn:E; try done.
  by destruct (Hp s).
Qed.

(** The method cannot be hashed: line 67 raises [TypeError]. *)
Lemma lambda_handler_unhashable event context w path :
  dict_get event "path" = VStr path →
  hashable (dict_get event "httpMethod") = false →
  lambda_handler event context w
  = (let e := "unhashable type: '" ++ type_name (dict_get event "httpMethod")
              ++ "'" in
     (internal_error e, caught e w)).
Proof.
  intros Hp Hh. unfold lambda_handler, handle_errors.
  rewrite (lambda_handler_body_str _ _ _ Hp). unfold get_any.
  by rewrite Hh.
Qed.

End Wrapper.

(** C10. An event without a path value gets status 500 with the body
    [{"message": "An internal error occurred: 'NoneType' object has no
    attribute 'startswith'"}], for the [AttributeError] of line 59 that the
    wrapper catches and prints; an event whose path has registered methods
    and whose method is absent, or is not one of them, gets status 404 with
    the body [{"message": "Not Found"}]. *)
Theorem C10_missing_path_or_method {rt : Runtime} event context w :
  (dict_get event "path" = VNone →
   lambda_handler event context w
   = ({| statusCode := 500;
         body :=
           json_dumps
             (VDict [("message",
                      VStr ("An internal error occurred: "
                            ++ "'NoneType' object has no attribute "
                            ++ "'startswith'"))]) |},
      {| table := table w; drawn := drawn w;
         stdout :=
           app (stdout w)
             ["Error executing function: "
              ++ "'NoneType' object has no attribute 'startswith'"] |}))
  ∧ (∀ path registered_method,
       dict_get event "path" = VStr path →
       Spec.registered (Spec.pattern path) registered_method = true →
       (dict_get event "httpMethod" = VNone
        ∨ ∃ m, dict_get event "httpMethod" = VStr m
               ∧ Spec.registered (Spec.pattern path) m = false) →
       lambda_handler event context w
       = ({| statusCode := 404;
             body := json_dumps (VDict [("message", VStr "Not Found")]) |},
          w)).
Proof.
  split.
  - intros Hp. rewrite lambda_handler_no_startswith; rewrite Hp; done.
  - intros path rm Hp _ Hm. apply (lambda_handler_not_found _ _ _ _ Hp).
    apply get_any_not_registered.
    + by destruct Hm as [->|(m & -> & _)].
    + intros m Hs. destruct Hm as [Hn|(m' & Hm' & Hr)]; [congruence|].
      rewrite Hs in Hm'. by injection Hm' as ->.
Qed.

(** An event with a method and no path, and one with a path and no
    method. *)
Lemma C10_missing_path_or_method_witness :
  lambda_handler (rt := Sample.runtime) [("httpMethod", VStr "GET")] VNone
    Sample.world_A
  = ({| statusCode := 500;
        body :=
          Sample.dumps
            (VDict [("message",
                     VStr ("An internal error occurred: "
                           ++ "'NoneType' object has no attribute "
                           ++ "'startswith'"))]) |},
     {| table := table Sample.world_A; drawn := 0;
        stdout :=
          ["Error executing function: "
           ++ "'NoneType' object has no attribute 'startswith'"] |})
  ∧ lambda_handler (rt := Sample.runtime) [("path", VStr "/projects/p1")]
      VNone Sample.world_A
    = ({| statusCode := 404;
          body := Sample.dumps (VDict [("message", VStr "Not Found")]) |},
       Sample.world_A).
Proof.
  split.
  - apply (proj1 (C10_missing_path_or_method (rt := Sample.runtime)
                    [("httpMethod", VStr "GET")] VNone Sample.world_A)).
    reflexivity.
  - apply (proj2 (C10_missing_path_or_method (rt := Sample.runtime)
                    [("path", VStr "/projects/p1")] VNone Sample.world_A)
             "/projects/p1" "GET"); [reflexivity|reflexivity|].
    left. reflexivity.
Defined.

(** ** The table keeps its invariant *)

Lemma wf_table_nonempty t k item :
  wf_table t → t !! k = Some item → item ≠ [].
Proof. intros Ht Hk ->. by specialize (Ht _ _ Hk). Qed.

Lemma wf_table_empty : wf_table ∅.
Proof. intros k item. by rewrite lookup_empty. Qed.

Lemma set_fields_id k name description status old :
  (∀ item, old = Some item → PyDict.find item "id" = Some (VStr k)) →
  PyDict.find (set_fields k name description status old) "id"
  = Some (VStr k).
Proof.
  intros Hold. unfold set_fields. rewrite !find_set_ne by done.
  destruct old as [item|]; simpl; [by apply Hold|done].
Qed.

Section Invariant.
Context {rt : Runtime}.

Lemma preserves_ret {A} (a : A) : preserves (ret a).
Proof. by intros w Hw. Qed.

Lemma preserves_raise {A} e : preserves (raise (A := A) e).
Proof. by intros w Hw. Qed.

Lemma preserves_lift {A} (r : string + A) : preserves (lift r).
Proof. destruct r; [apply preserves_raise|apply preserves_ret]. Qed.

Lemma preserves_bind {A B} (m : M A) (k : A → M B) :
  preserves m → (∀ a, preserves (k a)) → preserves (bind m k).
Proof.
  intros Hm Hk w Hw. unfold bind. specialize (Hm w Hw).
  destruct (m w) as [[e|a] w']; [done|]. by apply Hk.
Qed.

Lemma preserves_guard c : preserves (guard c).
Proof.
  unfold guard. destruct (store_fault c);
    [apply preserves_raise|apply preserves_ret].
Qed.

Lemma preserves_str_key c key : preserves (str_key c key).
Proof.
  destruct key; simpl; try apply preserves_raise. apply preserves_ret.
Qed.

Lemma preserves_draw_uuid : preserves draw_uuid.
Proof. by intros w Hw. Qed.

Lemma preserves_put_item item : preserves (put_item item).
Proof.
  unfold put_item. apply preserves_bind; [apply preserves_guard|].
  intros _. unfold dict_get.
  destruct (PyDict.find item "id") as [[]|] eqn:E; simpl;
    try (intros w Hw; exact Hw).
  intros w Hw k item' Hk. simpl in Hk.
  destruct (decide (s = k)) as [->|Hne].
  - rewrite lookup_insert_eq in Hk. by injection Hk as <-.
  - rewrite lookup_insert_ne in Hk by done. by apply Hw.
Qed.

Lemma preserves_scan : preserves scan.
Proof.
  unfold scan. apply preserves_bind; [apply preserves_guard|].
  by intros _ w Hw.
Qed.

Lemma preserves_get_item key : preserves (get_item key).
Proof.
  unfold get_item. apply preserves_bind; [apply preserves_guard|].
  intros _. apply preserves_bind; [apply preserves_str_key|].
  by intros k w Hw.
Qed.

Lemma preserves_update_item key name description status :
  preserves (update_item key name description status).
Proof.
  unfold update_item. apply preserves_bind; [apply preserves_guard|].
  intros _. apply preserves_bind; [apply preserves_str_key|].
  intros k w Hw k' item Hk. simpl in Hk.
  destruct (decide (k = k')) as [->|Hne].
  - rewrite lookup_insert_eq in Hk. injection Hk as <-.
    apply set_fields_id. intros item. apply Hw.
  - rewrite lookup_insert_ne in Hk by done. by apply Hw.
Qed.

Lemma preserves_delete_item key : preserves (delete_item key).
Proof.
  unfold delete_item. apply preserves_bind; [apply preserves_guard|].
  intros _. apply preserves_bind; [apply preserves_str_key|].
  intros k w Hw k' item Hk. simpl in Hk.
  apply lookup_delete_Some in Hk as [_ Hk]. by apply Hw.
Qed.

Create HintDb preserves.

Hint Resolve preserves_ret preserves_raise preserves_lift preserves_guard
  preserves_str_key preserves_draw_uuid preserves_put_item preserves_scan
  preserves_get_item preserves_update_item preserves_delete_item
  : preserves.

Ltac preserves_steps :=
  repeat first
    [ apply preserves_bind; [auto with preserves|intros ?]
    | case_match
    | solve [auto with preserves] ].

Lemma preserves_create_project event : preserves (create_project event).
Proof. unfold create_project. preserves_steps. Qed.

Lemma preserves_get_all_projects event :
  preserves (get_all_projects event).
Proof. unfold get_all_projects. preserves_steps. Qed.

Lemma preserves_get_project_by_id event :
  preserves (get_project_by_id event).
Proof. unfold get_project_by_id. preserves_steps. Qed.

Lemma preserves_update_project event : preserves (update_project event).
Proof. unfold update_project. preserves_steps. Qed.

Lemma preserves_delete_project event : preserves (delete_project event).
Proof. unfold delete_project. preserves_steps. Qed.

(** Every registered handler keeps the invariant. *)
Lemma preserves_routes path http_method handler event :
  PyDict.find (default [] (PyDict.find routes path)) http_method
  = Some handler →
  preserves (handler event).
Proof.
  rewrite routes_eq. cbn -[String.eqb].
  repeat (case_match; cbn -[String.eqb]); intros [= <-];
    auto using preserves_create_project, preserves_get_all_projects,
      preserves_get_project_by_id, preserves_update_project,
      preserves_delete_project.
Qed.

Lemma get_any_Some {A} (d : PyDict.pydict A) key a :
  get_any d key = inr (Some a) →
  ∃ k, key = VStr k ∧ PyDict.find d k = Some a.
Proof.
  unfold get_any. destruct (hashable key); [|done].
  destruct key; try done. intros [= Hk]. by eexists.
Qed.

Lemma preserves_lambda_handler_body event context :
  preserves (lambda_handler_body event context).
Proof.
  intros w Hw. unfold lambda_handler_body.
  destruct (dict_get event "path"); try done.
  destruct (path_parameters_of s) as [dynamic_path path_parameters].
  unfold bind, lift.
  destruct (get_any _ _) as [e|[handler|]] eqn:E; try done. simpl.
  apply get_any_Some in E as (k & _ & Hk).
  by apply (preserves_routes _ _ _ _ Hk).
Qed.

(** Whatever the event, the entry point leaves a table that satisfies the
    invariant. *)
Lemma wf_table_lambda_handler event context w :
  wf_table (table w) →
  wf_table (table (lambda_handler event context w).2).
Proof.
  intros Hw. unfold lambda_handler, handle_errors.
  pose proof (preserves_lambda_handler_body event context w Hw) as Hb.
  by destruct (lambda_handler_body event context w) as [[e|r] w'].
Qed.

End Invariant.

(** ** The by-id handlers at the entry point *)

Section Store.
Context {rt : Runtime}.

Lemma lambda_handler_get event context w pid :
  no_sep slash pid = true →
  requests "GET" ("/projects/" ++ pid) event →
  store_fault (GetItem (VStr pid)) = None →
  lambda_handler event context w
  = if not_item (table w !! pid)
    then ({| statusCode := 404;
             body := json_dumps (message "Project not found") |}, w)
    else if has_number (VDict (default [] (table w !! pid)))
         then (internal_error
                 "Object of type Decimal is not JSON serializable",
               caught "Object of type Decimal is not JSON serializable" w)
         else ({| statusCode := 200;
                  body := json_dumps
                            (VDict (default [] (table w !! pid))) |}, w).
Proof.
  intros Hx [Hm Hp] Hc.
  rewrite (lambda_handler_by_id _ _ _ pid "GET" _ Hx Hp Hm eq_refl).
  unfold handle_errors.
  rewrite (get_project_by_id_run _ _ pid (path_id_bound _ _) Hc).
  destruct (not_item (table w !! pid)); [done|].
  by destruct (has_number (VDict (default [] (table w !! pid)))).
Qed.

Lemma lambda_handler_delete event context w pid :
  no_sep slash pid = true →
  requests "DELETE" ("/projects/" ++ pid) event →
  store_fault (DeleteItem (VStr pid)) = None →
  lambda_handler event context w
  = ({| statusCode := 200;
        body := json_dumps (message "Project deleted successfully") |},
     with_table w (delete pid (table w))).
Proof.
  intros Hx [Hm Hp] Hc.
  rewrite (lambda_handler_by_id _ _ _ pid "DELETE" _ Hx Hp Hm eq_refl).
  apply handle_errors_returned, delete_project_run; [|done].
  apply path_id_bound.
Qed.

Lemma lambda_handler_update event context w pid s b :
  no_sep slash pid = true →
  requests "PUT" ("/projects/" ++ pid) event →
  dict_get event "body" = VStr s →
  json_loads s = inr (VDict b) →
  store_fault
    (UpdateItem (VStr pid) (dict_get b "name") (dict_get b "description")
       (dict_get b "status")) = None →
  lambda_handler event context w
  = ({| statusCode := 200;
        body := json_dumps (message "Project updated successfully") |},
     with_table w
       (<[pid := set_fields pid (dict_get b "name")
                   (dict_get b "description") (dict_get b "status")
                   (table w !! pid)]> (table w))).
Proof.
  intros Hx [Hm Hp] Hb Hs Hc.
  rewrite (lambda_handler_by_id _ _ _ pid "PUT" _ Hx Hp Hm eq_refl).
  apply handle_errors_returned, (update_project_run _ _ _ s);
    [apply path_id_bound| |done|done].
  by rewrite dict_get_bound.
Qed.

Lemma lambda_handler_create event context w s b :
  requests "POST" "/projects" event →
  dict_get event "body" = VStr s →
  json_loads s = inr (VDict b) →
  let id := uuid4 (drawn w) in
  let item :=
    project_item id (dict_get b "name") (dict_get b "description")
      (dict_get b "status") (dict_get b "createdAt") in
  store_fault (PutItem item) = None →
  lambda_handler event context w
  = ({| statusCode := 201; body := json_dumps (VDict item) |},
     with_table (after_draw w) (<[id := item]> (table w))).
Proof.
  intros Hr Hb Hs id item Hc.
  rewrite (lambda_handler_projects _ _ _ "POST" _ Hr eq_refl).
  apply handle_errors_returned, (create_project_run _ _ s); [|done|done].
  by rewrite dict_get_bound.
Qed.

Lemma not_item_Some item : item ≠ [] → not_item (Some item) = false.
Proof. by destruct item. Qed.

End Store.

(** C5. For every id without ['/'] and a storage client that accepts the
    get: when the table holds no item under the id, GET [/projects/<id>]
    answers status 404 with the body [{"message": "Project not found"}];
    when it holds an item without a number, it answers status 200 with the
    stored item as the body; when the stored item holds a number, which
    the client reads back as a [Decimal], [json.dumps] raises and the
    answer is status 500 with the body [{"message": "An internal error
    occurred: Object of type Decimal is not JSON serializable"}], not the
    200 of the other items.  The table is unchanged in each case. *)
Theorem C5_get_by_id {rt : Runtime} pid w event context :
  store_fault (GetItem (VStr pid)) = None →
  no_sep slash pid = true →
  requests "GET" ("/projects/" ++ pid) event →
  (table w !! pid = None →
   lambda_handler event context w
   = ({| statusCode := 404;
         body := json_dumps
                   (VDict [("message", VStr "Project not found")]) |}, w))
  ∧ (∀ item, table w !! pid = Some item → item ≠ [] →
       (has_number (VDict item) = false →
        lambda_handler event context w
        = ({| statusCode := 200; body := json_dumps (VDict item) |}, w))
       ∧ (has_number (VDict item) = true →
          lambda_handler event context w
          = ({| statusCode := 500;
                body :=
                  json_dumps
                    (VDict [("message",
                             VStr ("An internal error occurred: "
                                   ++ "Object of type Decimal is not "
                                   ++ "JSON serializable"))]) |},
             {| table := table w; drawn := drawn w;
                stdout :=
                  app (stdout w)
                    ["Error executing function: "
                     ++ "Object of type Decimal is not JSON serializable"]
             |}))).
Proof.
  intros Hc Hx Hr.
  pose proof (lambda_handler_get event context w pid Hx Hr Hc) as Hg.
  split.
  - intros Hi. by rewrite Hg, Hi.
  - intros item Hi Hne. rewrite Hi, (not_item_Some _ Hne) in Hg.
    simpl default in Hg. split; intros Hn; by rewrite Hg, Hn.
Qed.

(** The GET of a project that was created with the name 1. *)
Lemma C5_get_by_id_witness :
  lambda_handler (rt := Numbers.runtime)
    (Sample.request "GET" "/projects/6f1c2a9e-0000-4000-8000-0" VNone)
    VNone Numbers.world_numbered
  = ({| statusCode := 500;
        body :=
          Sample.dumps
            (VDict [("message",
                     VStr ("An internal error occurred: "
                           ++ "Object of type Decimal is not "
                           ++ "JSON serializable"))]) |},
     {| table := table Numbers.world_numbered; drawn := 1;
        stdout :=
          ["Error executing function: "
           ++ "Object of type Decimal is not JSON serializable"] |}).
Proof.
  apply (proj2 (proj2 (C5_get_by_id (rt := Numbers.runtime)
                         "6f1c2a9e-0000-4000-8000-0"
                         Numbers.world_numbered
                         (Sample.request "GET"
                            "/projects/6f1c2a9e-0000-4000-8000-0" VNone)
                         VNone eq_refl eq_refl (conj eq_refl eq_refl))
                  Numbers.stored_numbered eq_refl ltac:(discriminate)));
    reflexivity.
Defined.

(** C7. For every id under which the table holds an item, and a storage
    client that accepts the calls: the delete handler returns status 200
    with the body [{"message": "Project deleted successfully"}], the table
    then holds no item under the id and is unchanged elsewhere, and a
    get-by-id on that id then returns status 404 with the body
    [{"message": "Project not found"}]; at the handlers for every id, at
    the entry point for an id without ['/']. *)
Theorem C7_delete_then_get {rt : Runtime} pid w item :
  table w !! pid = Some item →
  store_fault (DeleteItem (VStr pid)) = None →
  let deleted :=
    {| statusCode := 200;
       body := json_dumps
                 (VDict [("message",
                          VStr "Project deleted successfully")]) |} in
  let not_found :=
    {| statusCode := 404;
       body := json_dumps
                 (VDict [("message", VStr "Project not found")]) |} in
  let w' := with_table w (delete pid (table w)) in
  (∀ event, path_id event = inr (VStr pid) →
            delete_project event w = (inr deleted, w'))
  ∧ (∀ event context,
       no_sep slash pid = true →
       requests "DELETE" ("/projects/" ++ pid) event →
       lambda_handler event context w = (deleted, w'))
  ∧ table w' !! pid = None
  ∧ (∀ other, other ≠ pid → table w' !! other = table w !! other)
  ∧ (store_fault (GetItem (VStr pid)) = None →
     (∀ event, path_id event = inr (VStr pid) →
               get_project_by_id event w' = (inr not_found, w'))
     ∧ (∀ event context,
          no_sep slash pid = true →
          requests "GET" ("/projects/" ++ pid) event →
          lambda_handler event context w' = (not_found, w'))).
Proof.
  intros _ Hc deleted not_found w'.
  assert (table w' !! pid = None) as Hgone by apply lookup_delete_eq.
  split; [intros event Hid; by apply delete_project_run|].
  split; [intros event context Hx Hr; by apply lambda_handler_delete|].
  split; [done|].
  split; [intros other Hne; by apply lookup_delete_ne|].
  intros Hg. split.
  - intros event Hid. by rewrite (get_project_by_id_run _ _ pid Hid Hg), Hgone.
  - intros event context Hx Hr.
    by rewrite (lambda_handler_get _ _ _ pid Hx Hr Hg), Hgone.
Qed.

(** Deleting [p1] leaves the table empty of it. *)
Lemma C7_delete_then_get_witness :
  lambda_handler (rt := Sample.runtime)
    (Sample.request "DELETE" "/projects/p1" VNone) VNone Sample.world_A
  = ({| statusCode := 200;
        body := Sample.dumps
                  (VDict [("message",
                           VStr "Project deleted successfully")]) |},
     with_table Sample.world_A (delete "p1" (table Sample.world_A))).
Proof.
  apply (proj1 (proj2 (C7_delete_then_get (rt := Sample.runtime) "p1"
                         Sample.world_A Sample.stored_A eq_refl eq_refl)));
    [reflexivity|]. split; reflexivity.
Defined.

(** ** What an update writes *)

Lemma set_fields_name k name description status old :
  PyDict.find (set_fields k name description status old) "name" = Some name.
Proof.
  unfold set_fields. rewrite !find_set_ne by done.
  apply find_set_eq.
Qed.

Lemma set_fields_description k name description status old :
  PyDict.find (set_fields k name description status old) "description"
  = Some description.
Proof.
  unfold set_fields. rewrite find_set_ne by done.
  apply find_set_eq.
Qed.

Lemma set_fields_status k name description status old :
  PyDict.find (set_fields k name description status old) "status"
  = Some status.
Proof. unfold set_fields. apply find_set_eq. Qed.

Lemma set_fields_frame k name description status old attribute :
  attribute ≠ "name" → attribute ≠ "description" →
  attribute ≠ "status" →
  PyDict.find (set_fields k name description status old) attribute
  = PyDict.find (default [("id", VStr k)] old) attribute.
Proof.
  intros Hn Hd Hs. unfold set_fields. by rewrite !find_set_ne.
Qed.

Lemma set_fields_not_nil k name description status old :
  set_fields k name description status old ≠ [].
Proof. apply set_not_nil. Qed.

(** C6. For every id under which the table holds an item, every body that
    parses to a JSON object, and a storage client that accepts the call:
    the update handler returns status 200 with the body
    [{"message": "Project updated successfully"}]; in the stored item the
    attributes [name], [description] and [status] now have the values of
    the body ([None] for a key the body lacks) and every other attribute,
    [id] and [createdAt] among them, is as before; the other items are
    untouched; and a get-by-id on the id then returns the updated item
    when it holds no number. *)
Theorem C6_update_existing {rt : Runtime} pid w item s b :
  table w !! pid = Some item →
  json_loads s = inr (VDict b) →
  store_fault
    (UpdateItem (VStr pid) (dict_get b "name") (dict_get b "description")
       (dict_get b "status")) = None →
  let updated :=
    {| statusCode := 200;
       body := json_dumps
                 (VDict [("message",
                          VStr "Project updated successfully")]) |} in
  let item' :=
    set_fields pid (dict_get b "name") (dict_get b "description")
      (dict_get b "status") (Some item) in
  let w' := with_table w (<[pid := item']> (table w)) in
  (∀ event, path_id event = inr (VStr pid) →
            dict_get event "body" = VStr s →
            update_project event w = (inr updated, w'))
  ∧ (∀ event context,
       no_sep slash pid = true →
       requests "PUT" ("/projects/" ++ pid) event →
       dict_get event "body" = VStr s →
       lambda_handler event context w = (updated, w'))
  ∧ table w' !! pid = Some item'
  ∧ dict_get item' "name" = dict_get b "name"
  ∧ dict_get item' "description" = dict_get b "description"
  ∧ dict_get item' "status" = dict_get b "status"
  ∧ PyDict.find item' "id" = PyDict.find item "id"
  ∧ PyDict.find item' "createdAt" = PyDict.find item "createdAt"
  ∧ (∀ attribute,
       attribute ≠ "name" → attribute ≠ "description" →
       attribute ≠ "status" →
       PyDict.find item' attribute = PyDict.find item attribute)
  ∧ (∀ other, other ≠ pid → table w' !! other = table w !! other)
  ∧ (store_fault (GetItem (VStr pid)) = None →
     has_number (VDict item') = false →
     ∀ event context,
       no_sep slash pid = true →
       requests "GET" ("/projects/" ++ pid) event →
       lambda_handler event context w'
       = ({| statusCode := 200; body := json_dumps (VDict item') |}, w')).
Proof.
  intros Hi Hs Hc updated item' w'.
  assert (table w' !! pid = Some item') as Hi' by apply lookup_insert_eq.
  split.
  { intros event Hid Hb. unfold updated, w', item'. rewrite <- Hi.
    by apply (update_project_run _ _ _ s). }
  split.
  { intros event context Hx Hr Hb. unfold updated, w', item'. rewrite <- Hi.
    by apply (lambda_handler_update _ _ _ _ s). }
  split; [done|]. unfold dict_get at 1 3 5. unfold item'.
  rewrite set_fields_name, set_fields_description, set_fields_status.
  do 3 (split; [done|]).
  do 3 (split; [by intros; apply set_fields_frame|]).
  split; [intros other Hne; by apply lookup_insert_ne|].
  intros Hg Hn event context Hx Hr.
  rewrite (lambda_handler_get _ _ _ pid Hx Hr Hg), Hi'.
  rewrite (not_item_Some item' (set_fields_not_nil _ _ _ _ _)).
  simpl default. unfold item' in *. by rewrite Hn.
Qed.

(** An update of [p1] that sends a name and a status. *)
Lemma C6_update_existing_witness :
  lambda_handler (rt := Sample.runtime)
    (Sample.request "PUT" "/projects/p1"
       (VStr (Sample.dumps Sample.partial_update))) VNone Sample.world_A
  = ({| statusCode := 200;
        body := Sample.dumps
                  (VDict [("message",
                           VStr "Project updated successfully")]) |},
     with_table Sample.world_A
       (<["p1" := [("id", VStr "p1"); ("name", VStr "B");
                   ("description", VNone); ("status", VStr "closed");
                   ("createdAt", VStr "2024-01-01")]]>
          (table Sample.world_A))).
Proof.
  apply (proj1 (proj2 (C6_update_existing (rt := Sample.runtime) "p1"
                         Sample.world_A Sample.stored_A
                         (Sample.dumps Sample.partial_update)
                         [("name", VStr "B"); ("status", VStr "closed")]
                         eq_refl eq_refl eq_refl)));
    [reflexivity| |reflexivity].
  split; reflexivity.
Defined.

(** C8. For every id under which the table holds no item, and a storage
    client that accepts the calls: the update handler, for a body that
    parses to a JSON object, returns the same status 200 and body
    [{"message": "Project updated successfully"}] as for an existing id (the
    service then holds an item made of the key and the three attributes),
    and the delete handler returns the same status 200 and body
    [{"message": "Project deleted successfully"}] and leaves the world as it
    was; neither returns 404 or raises. *)
Theorem C8_absent_id {rt : Runtime} pid w :
  table w !! pid = None →
  (∀ s b,
     json_loads s = inr (VDict b) →
     store_fault
       (UpdateItem (VStr pid) (dict_get b "name") (dict_get b "description")
          (dict_get b "status")) = None →
     let updated :=
       {| statusCode := 200;
          body := json_dumps (message "Project updated successfully") |} in
     let w' :=
       with_table w
         (<[pid := [("id", VStr pid); ("name", dict_get b "name");
                    ("description", dict_get b "description");
                    ("status", dict_get b "status")]]> (table w)) in
     (∀ event, path_id event = inr (VStr pid) →
               dict_get event "body" = VStr s →
               update_project event w = (inr updated, w'))
     ∧ (∀ event context,
          no_sep slash pid = true →
          requests "PUT" ("/projects/" ++ pid) event →
          dict_get event "body" = VStr s →
          lambda_handler event context w = (updated, w')))
  ∧ (store_fault (DeleteItem (VStr pid)) = None →
     let deleted :=
       {| statusCode := 200;
          body := json_dumps (message "Project deleted successfully") |} in
     (∀ event, path_id event = inr (VStr pid) →
               delete_project event w = (inr deleted, w))
     ∧ (∀ event context,
          no_sep slash pid = true →
          requests "DELETE" ("/projects/" ++ pid) event →
          lambda_handler event context w = (deleted, w))).
Proof.
  intros Hi. split.
  - intros s b Hs Hc updated w'.
    assert (w' = with_table w
                   (<[pid := set_fields pid (dict_get b "name")
                               (dict_get b "description")
                               (dict_get b "status") (table w !! pid)]>
                      (table w))) as -> by by rewrite Hi.
    split.
    + intros event Hid Hb. by apply (update_project_run _ _ _ s).
    + intros event context Hx Hr Hb.
      by apply (lambda_handler_update _ _ _ _ s).
  - intros Hc deleted.
    assert (with_table w (delete pid (table w)) = w) as Hw.
    { rewrite delete_id by done. by destruct w. }
    split.
    + intros event Hid. rewrite <- Hw at 2. by apply delete_project_run.
    + intros event context Hx Hr. rewrite <- Hw at 2.
      by apply lambda_handler_delete.
Qed.

(** Nothing is stored under [p2]: the delete still answers 200. *)
Lemma C8_absent_id_witness :
  lambda_handler (rt := Sample.runtime)
    (Sample.request "DELETE" "/projects/p2" VNone) VNone Sample.world_A
  = ({| statusCode := 200;
        body := Sample.dumps (message "Project deleted successfully") |},
     Sample.world_A).
Proof.
  apply (proj2 (proj2 (C8_absent_id (rt := Sample.runtime) "p2"
                         Sample.world_A eq_refl) eq_refl));
    [reflexivity|]. split; reflexivity.
Defined.

(** ** What a create stores *)

Lemma project_item_fields id name description status createdAt :
  let item := project_item id name description status createdAt in
  PyDict.find item "id" = Some (VStr id)
  ∧ PyDict.find item "name" = Some name
  ∧ PyDict.find item "description" = Some description
  ∧ PyDict.find item "status" = Some status
  ∧ PyDict.find item "createdAt" = Some createdAt.
Proof. repeat split. Qed.

Lemma dict_get_absent (d : dict) k :
  PyDict.find d k = None → dict_get d k = VNone.
Proof. intros Hk. unfold dict_get. by rewrite Hk. Qed.

(** C4, as stated, fails twice.  The generated identifier is not compared
    with the table: with a generator that returns [p1], a create on a table
    that holds [p1] answers 201 with the id [p1] and replaces the stored
    project.  And a body with a number is not read back: the create of a
    project whose name is 1 answers 201, and the get-by-id of the returned
    id answers 500. *)
Lemma C4_counterexample :
  (table Sample.world_A !! "p1" = Some Sample.stored_A
   ∧ lambda_handler (rt := Numbers.colliding)
       (Sample.request "POST" "/projects" (VStr "{}")) VNone Sample.world_A
     = ({| statusCode := 201;
           body := Sample.dumps
                     (VDict [("id", VStr "p1"); ("name", VNone);
                             ("description", VNone); ("status", VNone);
                             ("createdAt", VNone)]) |},
        {| table := {[ "p1" := [("id", VStr "p1"); ("name", VNone);
                                ("description", VNone); ("status", VNone);
                                ("createdAt", VNone)] ]};
           drawn := 1; stdout := [] |}))
  ∧ (lambda_handler (rt := Numbers.runtime)
       (Sample.request "POST" "/projects"
          (VStr (Sample.dumps Numbers.numbered_project))) VNone
       Sample.empty_world
     = ({| statusCode := 201;
           body := Sample.dumps (VDict Numbers.stored_numbered) |},
        Numbers.world_numbered)
     ∧ statusCode
         (lambda_handler (rt := Numbers.runtime)
            (Sample.request "GET" "/projects/6f1c2a9e-0000-4000-8000-0"
               VNone) VNone Numbers.world_numbered).1
       = 500).
Proof. repeat split; vm_compute; reflexivity. Qed.

(** C4, amended. For every create request whose body parses to a JSON
    object with no number under [name], [description], [status] and
    [createdAt], with a storage client that accepts the calls: the entry
    point answers the POST on [/projects] with status 201 and the created
    item as the body; the id of that item is the identifier that the
    generator returned (a text without ['/']), whatever the body says; a
    GET on [/projects/<that id>] then answers status 200 with that item,
    whose name, description, status and createdAt are the values of the
    body.  The identifier is not compared with the table: the item is
    stored under it whether or not the table held one there, and every
    other id keeps its item. *)
Theorem C4_create_then_get {rt : Runtime} w s b :
  json_loads s = inr (VDict b) →
  has_number (dict_get b "name") = false →
  has_number (dict_get b "description") = false →
  has_number (dict_get b "status") = false →
  has_number (dict_get b "createdAt") = false →
  let id := uuid4 (drawn w) in
  let item : dict :=
    [("id", VStr id); ("name", dict_get b "name");
     ("description", dict_get b "description");
     ("status", dict_get b "status");
     ("createdAt", dict_get b "createdAt")] in
  let w' := with_table (after_draw w) (<[id := item]> (table w)) in
  store_fault (PutItem item) = None →
  store_fault (GetItem (VStr id)) = None →
  no_sep slash id = true →
  (∀ event context,
     requests "POST" "/projects" event →
     dict_get event "body" = VStr s →
     lambda_handler event context w
     = ({| statusCode := 201; body := json_dumps (VDict item) |}, w'))
  ∧ (∀ event context,
       requests "GET" ("/projects/" ++ id) event →
       lambda_handler event context w'
       = ({| statusCode := 200; body := json_dumps (VDict item) |}, w'))
  ∧ table w' !! id = Some item
  ∧ (∀ other, other ≠ id → table w' !! other = table w !! other).
Proof.
  intros Hs Hn Hd Hst Hcr id item w' Hp Hg Hx.
  assert (table w' !! id = Some item) as Hi by apply lookup_insert_eq.
  split.
  { intros event context Hr Hb. by apply (lambda_handler_create _ _ _ s b). }
  split.
  { intros event context Hr.
    assert (has_number (VDict item) = false) as Hnum.
    { subst item. cbn [has_number existsb snd].
      by rewrite Hn, Hd, Hst, Hcr. }
    rewrite (lambda_handler_get _ _ _ id Hx Hr Hg), Hi.
    simpl default. cbn [not_item item]. by rewrite Hnum. }
  split; [done|].
  intros other Hne. simpl. by rewrite lookup_insert_ne.
Qed.

(** The scenario of the specification, then a GET of the created id. *)
Lemma C4_create_then_get_witness :
  let created : dict :=
    [("id", VStr "6f1c2a9e-0000-4000-8000-0"); ("name", VStr "A");
     ("description", VStr "d"); ("status", VStr "open");
     ("createdAt", VStr "2024-01-01")] in
  let w' :=
    {| table := {[ "6f1c2a9e-0000-4000-8000-0" := created ]};
       drawn := 1; stdout := [] |} in
  lambda_handler (rt := Sample.runtime)
    (Sample.request "POST" "/projects"
       (VStr (Sample.dumps Sample.project_A))) VNone Sample.empty_world
  = ({| statusCode := 201; body := Sample.dumps (VDict created) |}, w')
  ∧ lambda_handler (rt := Sample.runtime)
      (Sample.request "GET" "/projects/6f1c2a9e-0000-4000-8000-0" VNone)
      VNone w'
    = ({| statusCode := 200; body := Sample.dumps (VDict created) |}, w').
Proof.
  intros created w'.
  pose proof (C4_create_then_get (rt := Sample.runtime) Sample.empty_world
                (Sample.dumps Sample.project_A)
                [("name", VStr "A"); ("description", VStr "d");
                 ("status", VStr "open"); ("createdAt", VStr "2024-01-01")]
                eq_refl eq_refl eq_refl eq_refl eq_refl eq_refl eq_refl
                eq_refl)
    as (Hcreate & Hget & _).
  split.
  - apply Hcreate; [|reflexivity]. split; reflexivity.
  - apply Hget. split; reflexivity.
Defined.

(** C9. For every create request whose body parses to a JSON object, with
    a storage client that accepts the call, the entry point answers status
    201 with the created item as the body, the item is stored under its id,
    and each of [name], [description], [status] and [createdAt] that the
    body lacks is [None] (JSON [null]) in that item; no other status and no
    failure comes from a missing field. *)
Theorem C9_missing_fields_are_null {rt : Runtime} event context w s b :
  requests "POST" "/projects" event →
  dict_get event "body" = VStr s →
  json_loads s = inr (VDict b) →
  let id := uuid4 (drawn w) in
  let item :=
    project_item id (dict_get b "name") (dict_get b "description")
      (dict_get b "status") (dict_get b "createdAt") in
  let w' := with_table (after_draw w) (<[id := item]> (table w)) in
  store_fault (PutItem item) = None →
  lambda_handler event context w
  = ({| statusCode := 201; body := json_dumps (VDict item) |}, w')
  ∧ table w' !! id = Some item
  ∧ (∀ field,
       field ∈ ["name"; "description"; "status"; "createdAt"] →
       PyDict.find b field = None →
       PyDict.find item field = Some VNone).
Proof.
  intros Hr Hb Hs id item w' Hp.
  split; [by apply (lambda_handler_create _ _ _ s b)|].
  split; [apply lookup_insert_eq|].
  intros field Hf Hnone.
  destruct (project_item_fields id (dict_get b "name")
              (dict_get b "description") (dict_get b "status")
              (dict_get b "createdAt")) as (_ & Hn & Hd & Hst & Hc).
  rewrite !elem_of_cons, elem_of_nil in Hf.
  destruct Hf as [->|[->|[->|[->|[]]]]]; unfold item;
    rewrite <- (dict_get_absent b _ Hnone); done.
Qed.

(** A create with the empty object: every field of the item is [None]. *)
Lemma C9_missing_fields_are_null_witness :
  let created : dict :=
    [("id", VStr "6f1c2a9e-0000-4000-8000-0"); ("name", VNone);
     ("description", VNone); ("status", VNone); ("createdAt", VNone)] in
  lambda_handler (rt := Sample.runtime)
    (Sample.request "POST" "/projects" (VStr "{}")) VNone Sample.empty_world
  = ({| statusCode := 201; body := Sample.dumps (VDict created) |},
     {| table := {[ "6f1c2a9e-0000-4000-8000-0" := created ]};
        drawn := 1; stdout := [] |}).
Proof.
  intros created.
  apply (proj1 (C9_missing_fields_are_null (rt := Sample.runtime)
                  (Sample.request "POST" "/projects" (VStr "{}")) VNone
                  Sample.empty_world "{}" []
                  (conj eq_refl eq_refl) eq_refl eq_refl eq_refl)).
Defined.

(** ** The entry point on concrete events *)

Section Examples.
Import Sample.

Let run (rt : Runtime) (event : dict) (w : world) : response :=
  (lambda_handler (rt := rt) event VNone w).1.

Let failure (text : string) : response :=
  {| statusCode := 500;
     body := dumps (message ("An internal error occurred: " ++ text)) |}.

Example nested_path_not_found :
  run runtime (request "GET" "/projects/p1/tasks" VNone) world_A
  = {| statusCode := 404; body := dumps (message "Not Found") |}.
Proof. reflexivity. Qed.

Example trailing_slash_binds_empty_id :
  run runtime (request "GET" "/projects/" VNone) world_A
  = {| statusCode := 404; body := dumps (message "Project not found") |}.
Proof. reflexivity. Qed.

Example list_returns_items :
  run runtime (request "GET" "/projects" VNone) world_A
  = {| statusCode := 200; body := dumps (VList [VDict stored_A]) |}.
Proof. vm_compute. reflexivity. Qed.

Example update_without_body :
  run runtime (request "PUT" "/projects/p1" VNone) world_A
  = failure "the JSON object must be str, bytes or bytearray, not NoneType".
Proof. reflexivity. Qed.

Example create_with_array_body :
  lambda_handler (rt := runtime) (request "POST" "/projects" (VStr "[]"))
    VNone empty_world
  = (failure "'list' object has no attribute 'get'",
     caught "'list' object has no attribute 'get'" (after_draw empty_world)).
Proof. reflexivity. Qed.

Example method_is_a_list :
  run runtime [("httpMethod", VList []); ("path", VStr "/projects")] world_A
  = failure "unhashable type: 'list'".
Proof. reflexivity. Qed.

Example path_is_a_number :
  run runtime [("httpMethod", VStr "GET"); ("path", VInt 7)] world_A
  = failure "'int' object has no attribute 'startswith'".
Proof. reflexivity. Qed.

Example list_when_offline :
  run offline (request "GET" "/projects" VNone) world_A
  = failure "Could not connect to the endpoint URL".
Proof. reflexivity. Qed.

Example world_A_wf : wf_table (table world_A).
Proof.
  intros k item Hk. simpl in Hk.
  by apply lookup_singleton_Some in Hk as [<- <-].
Qed.

End Examples.

(** * Further properties of the entry point *)

(** ** Dicts, continued *)

Lemma set_set {A} (d : PyDict.pydict A) k v v' :
  PyDict.set (PyDict.set d k v) k v' = PyDict.set d k v'.
Proof.
  induction d as [|[k0 v0] d IH]; simpl.
  - by rewrite String.eqb_refl.
  - destruct (String.eqb k0 k) eqn:E; simpl.
    + by rewrite String.eqb_refl.
    + by rewrite E, IH.
Qed.

Lemma set_found {A} (d : PyDict.pydict A) k v :
  PyDict.find d k = Some v → PyDict.set d k v = d.
Proof.
  induction d as [|[k0 v0] d IH]; simpl; [done|].
  destruct (String.eqb k0 k) eqn:E.
  - apply String.eqb_eq in E as ->. by intros [= ->].
  - intros Hd. by rewrite IH.
Qed.

(** ** Which handler runs *)

Section Dispatch.
Context {rt : Runtime}.

(** The registry holds five handlers and nothing else. *)
Lemma routes_inv pattern http_method handler :
  PyDict.find (default [] (PyDict.find routes pattern)) http_method
  = Some handler →
  (pattern = "/projects"
   ∧ ((http_method = "POST" ∧ handler = create_project)
      ∨ (http_method = "GET" ∧ handler = get_all_projects)))
  ∨ (pattern = "/projects/{id}"
     ∧ ((http_method = "GET" ∧ handler = get_project_by_id)
        ∨ (http_method = "PUT" ∧ handler = update_project)
        ∨ (http_method = "DELETE" ∧ handler = delete_project))).
Proof.
  rewrite routes_eq. cbn -[String.eqb].
  destruct (String.eqb "/projects" pattern) eqn:Ep; cbn -[String.eqb].
  - apply String.eqb_eq in Ep as <-.
    destruct (String.eqb "POST" http_method) eqn:E1.
    { apply String.eqb_eq in E1 as <-. intros [= <-]. left. by auto. }
    destruct (String.eqb "GET" http_method) eqn:E2; [|done].
    apply String.eqb_eq in E2 as <-. intros [= <-]. left. by auto.
  - destruct (String.eqb "/projects/{id}" pattern) eqn:Ed;
      cbn -[String.eqb]; [|done].
    apply String.eqb_eq in Ed as <-.
    destruct (String.eqb "GET" http_method) eqn:E1.
    { apply String.eqb_eq in E1 as <-. intros [= <-]. right. by auto. }
    destruct (String.eqb "PUT" http_method) eqn:E2.
    { apply String.eqb_eq in E2 as <-. intros [= <-]. right. by auto. }
    destruct (String.eqb "DELETE" http_method) eqn:E3; [|done].
    apply String.eqb_eq in E3 as <-. intros [= <-]. right. by auto 6.
Qed.

(** The pattern of a path is [/projects] only for that path, and is the
    dynamic pattern only for a path [/projects/<x>] without further ['/']. *)
Lemma pattern_projects path :
  Spec.pattern path = "/projects" → path = "/projects".
Proof.
  unfold Spec.pattern.
  destruct (Spec.removeprefix "/projects/" path) as [segment|]; [|done].
  by destruct (no_sep slash segment).
Qed.

Lemma pattern_dynamic path :
  Spec.pattern path = "/projects/{id}" →
  ∃ x, path = "/projects/" ++ x ∧ no_sep slash x = true.
Proof.
  unfold Spec.pattern.
  destruct (Spec.removeprefix "/projects/" path) as [segment|] eqn:E.
  - apply removeprefix_Some in E as ->.
    destruct (no_sep slash segment) eqn:Hs; [by exists segment|].
    intros [= Hseg]. change (segment = "{id}") in Hseg. by subst segment.
  - intros ->. by vm_compute in E.
Qed.

(** The three ways a run of the router ends: it raises before any handler
    runs, it answers 404 itself, or it runs a registered handler on the
    event with the path parameters of the path. *)
Lemma lambda_handler_body_cases event context w :
  (∃ e, lambda_handler_body event context w = (inl e, w))
  ∨ lambda_handler_body event context w
    = (inr {| statusCode := 404;
              body := json_dumps (message "Not Found") |}, w)
  ∨ (∃ path http_method handler,
       dict_get event "path" = VStr path
       ∧ dict_get event "httpMethod" = VStr http_method
       ∧ PyDict.find (default [] (PyDict.find routes (Spec.pattern path)))
           http_method = Some handler
       ∧ lambda_handler_body event context w
         = handler (PyDict.set event "pathParameters"
                      (path_parameters_of path).2) w).
Proof.
  destruct (dict_get event "path") as [| | | |path| |] eqn:Hp;
    try (left; eexists; unfold lambda_handler_body; by rewrite Hp).
  rewrite (lambda_handler_body_str _ _ _ Hp), handler_path_of_spec.
  destruct (get_any (default [] (PyDict.find routes (Spec.pattern path)))
              (dict_get event "httpMethod")) as [e|[handler|]] eqn:Hg.
  - left. by exists e.
  - right. right. apply get_any_Some in Hg as (m & Hm & Hh).
    by exists path, m, handler.
  - right. by left.
Qed.

End Dispatch.

(** ** What a handler can do to the world *)

(** Splits on what a run depends on, innermost first: the parts of the
    event, the answers of the runtime, and the values already obtained. *)
Ltac split_cases :=
  repeat (match goal with
          | |- context [match ?x with _ => _ end] =>
              first [ is_var x
                    | lazymatch x with
                      | dict_get _ _ => idtac
                      | path_id _ => idtac
                      | json_loads _ => idtac
                      | store_fault _ => idtac
                      | not_item _ => idtac
                      | has_number _ => idtac
                      end ];
              destruct x eqn:?
          end; cbv beta iota).

Section Outcomes.
Context {rt : Runtime}.

Ltac settle :=
  intros event w; run_monad; split_cases;
  cbn [fst snd table stdout drawn statusCode with_table after_draw];
  auto.

Lemma settles_create_project event : settles 201 (create_project event).
Proof. revert event. unfold create_project. settle. Qed.

Lemma settles_get_all_projects event :
  settles 200 (get_all_projects event).
Proof. revert event. unfold get_all_projects. settle. Qed.

Lemma settles_get_project_by_id event :
  settles 200 (get_project_by_id event).
Proof. revert event. unfold get_project_by_id. settle. Qed.

Lemma settles_update_project event : settles 200 (update_project event).
Proof. revert event. unfold update_project. settle. Qed.

Lemma settles_delete_project event : settles 200 (delete_project event).
Proof. revert event. unfold delete_project. settle. Qed.

(** Every registered handler settles, with the status of its method. *)
Lemma settles_routes pattern http_method handler event :
  PyDict.find (default [] (PyDict.find routes pattern)) http_method
  = Some handler →
  settles (success_status http_method) (handler event).
Proof.
  intros [[_ [[-> ->]|[-> ->]]]|[_ [[-> ->]|[[-> ->]|[-> ->]]]]]%routes_inv.
  - apply settles_create_project.
  - apply settles_get_all_projects.
  - apply settles_get_project_by_id.
  - apply settles_update_project.
  - apply settles_delete_project.
Qed.

(** The two handlers of GET leave the world as it is. *)
Lemma get_all_projects_world event w : (get_all_projects event w).2 = w.
Proof. unfold get_all_projects. run_monad. by split_cases. Qed.

Lemma get_project_by_id_world event w : (get_project_by_id event w).2 = w.
Proof.
  unfold get_project_by_id. run_monad. by split_cases.
Qed.

End Outcomes.

(** ** Outcomes of the entry point *)

Section EntryOutcomes.
Context {rt : Runtime}.

(** The run of the entry point, by the run of the router. *)
Lemma lambda_handler_eq event context w :
  lambda_handler event context w
  = match lambda_handler_body event context w with
    | (inr r, w') => (r, w')
    | (inl e, w') => (internal_error e, caught e w')
    end.
Proof. reflexivity. Qed.

(** The entry point settles like the handler it runs: when the router
    returns, the status is the one of the method or 404 with the world as
    it was; when it raises, the table and what was printed are as
    before. *)
Lemma lambda_handler_body_settles event context w :
  match lambda_handler_body event context w with
  | (inl _, w') => table w' = table w ∧ stdout w' = stdout w
  | (inr r, w') =>
      stdout w' = stdout w
      ∧ ((∃ path http_method,
            dict_get event "path" = VStr path
            ∧ dict_get event "httpMethod" = VStr http_method
            ∧ Spec.registered (Spec.pattern path) http_method = true
            ∧ statusCode r = success_status http_method)
         ∨ (statusCode r = 404 ∧ w' = w))
  end.
Proof.
  destruct (lambda_handler_body_cases event context w)
    as [[e ->]|[->|(path & m & h & Hp & Hm & Hh & ->)]]; [done|auto|].
  pose proof (settles_routes _ _ _
                (PyDict.set event "pathParameters"
                   (path_parameters_of path).2) Hh w) as Hs.
  destruct (h _ w) as [[e|r] w']; [done|].
  destruct Hs as [Hout [Hok|H404]]; (split; [done|]); [|by right].
  left. exists path, m. repeat split; try done.
  rewrite <- routes_registered. apply bool_decide_eq_true_2. by eexists.
Qed.

Lemma registered_post pattern :
  Spec.registered pattern "POST" = true → pattern = "/projects".
Proof.
  unfold Spec.registered, Spec.dispatch_table. cbn -[String.eqb].
  destruct (String.eqb "/projects" pattern) eqn:E.
  { by apply String.eqb_eq in E. }
  by destruct (String.eqb "/projects/{id}" pattern).
Qed.

End EntryOutcomes.

(** ** Failures at the entry point *)

(** C3. The entry point lets no exception of the router or of a handler
    through: for every event, either the router returned a response, which
    the entry point returns as it is and whose status is 200, 201 or 404,
    or the router or the handler raised an exception of text [e], and the
    entry point returns status 500 with the body
    [{"message": "An internal error occurred: e"}] after printing
    [Error executing function: e].  So it is for a path that is not a
    string, for a method that cannot be hashed, for a body that
    [json.loads] rejects (create, update), for a call that the storage
    client rejects (each of the five handlers), and for a stored item with
    a number, which [json.dumps] rejects. *)
Theorem C3_failures_become_500 {rt : Runtime} event context w :
  let failed (e : string) (w1 : world) : response * world :=
    ({| statusCode := 500;
        body :=
          json_dumps
            (VDict [("message",
                     VStr ("An internal error occurred: " ++ e))]) |},
     {| table := table w1; drawn := drawn w1;
        stdout := app (stdout w1) ["Error executing function: " ++ e] |})
  in
  ((∃ e w1, lambda_handler_body event context w = (inl e, w1)
            ∧ lambda_handler event context w = failed e w1)
   ∨ (∃ r w1, lambda_handler_body event context w = (inr r, w1)
              ∧ lambda_handler event context w = (r, w1)
              ∧ (statusCode r = 200 ∨ statusCode r = 201
                 ∨ statusCode r = 404)))
  ∧ ((∀ path, dict_get event "path" ≠ VStr path) →
     lambda_handler event context w
     = failed ("'" ++ type_name (dict_get event "path")
               ++ "' object has no attribute 'startswith'") w)
  ∧ (∀ path, dict_get event "path" = VStr path →
       hashable (dict_get event "httpMethod") = false →
       lambda_handler event context w
       = failed ("unhashable type: '"
                 ++ type_name (dict_get event "httpMethod") ++ "'") w)
  ∧ (∀ s e, dict_get event "body" = VStr s → json_loads s = inl e →
       (requests "POST" "/projects" event →
        lambda_handler event context w = failed e w)
       ∧ (∀ x, no_sep slash x = true →
               requests "PUT" ("/projects/" ++ x) event →
               lambda_handler event context w = failed e w))
  ∧ (∀ e,
       (requests "GET" "/projects" event → store_fault Scan = Some e →
        lambda_handler event context w = failed e w)
       ∧ (∀ x, no_sep slash x = true →
            (requests "GET" ("/projects/" ++ x) event →
             store_fault (GetItem (VStr x)) = Some e →
             lambda_handler event context w = failed e w)
            ∧ (requests "DELETE" ("/projects/" ++ x) event →
               store_fault (DeleteItem (VStr x)) = Some e →
               lambda_handler event context w = failed e w)
            ∧ (∀ s b, requests "PUT" ("/projects/" ++ x) event →
                 dict_get event "body" = VStr s →
                 json_loads s = inr (VDict b) →
                 store_fault
                   (UpdateItem (VStr x) (dict_get b "name")
                      (dict_get b "description") (dict_get b "status"))
                 = Some e →
                 lambda_handler event context w = failed e w))
       ∧ (∀ s b, requests "POST" "/projects" event →
            dict_get event "body" = VStr s →
            json_loads s = inr (VDict b) →
            store_fault
              (PutItem
                 (project_item (uuid4 (drawn w)) (dict_get b "name")
                    (dict_get b "description") (dict_get b "status")
                    (dict_get b "createdAt"))) = Some e →
            lambda_handler event context w = failed e (after_draw w)))
  ∧ (∀ x item,
       no_sep slash x = true →
       requests "GET" ("/projects/" ++ x) event →
       store_fault (GetItem (VStr x)) = None →
       table w !! x = Some item → item ≠ [] →
       has_number (VDict item) = true →
       lambda_handler event context w
       = failed "Object of type Decimal is not JSON serializable" w).
Proof.
  intros failed.
  assert (∀ e w1, (internal_error e, caught e w1) = failed e w1) as Hf
    by reflexivity.
  split.
  { rewrite lambda_handler_eq.
    pose proof (lambda_handler_body_settles event context w) as Hs.
    destruct (lambda_handler_body event context w) as [[e|r] w1].
    - left. by exists e, w1.
    - right. exists r, w1. do 2 (split; [done|]).
      destruct Hs as [_ [(path & m & _ & _ & _ & ->)|[-> _]]]; [|by auto].
      unfold success_status. destruct (String.eqb m "POST"); by auto. }
  split.
  { intros Hp. by rewrite lambda_handler_no_startswith. }
  split.
  { intros path Hp Hh. by rewrite (lambda_handler_unhashable _ _ _ path). }
  split.
  - intros s e Hb Hs. split.
    + intros Hr. rewrite (lambda_handler_projects _ _ _ "POST" _ Hr eq_refl).
      rewrite <- Hf.
      apply handle_errors_raised, (create_project_bad_json _ _ s); [|done].
      by rewrite dict_get_bound.
    + intros x Hx [Hm Hp].
      rewrite (lambda_handler_by_id _ _ _ x "PUT" _ Hx Hp Hm eq_refl).
      rewrite <- Hf.
      apply handle_errors_raised, (update_project_bad_json _ _ x s);
        [apply path_id_bound| |done].
      by rewrite dict_get_bound.
  - split.
    + intros e. split; [|split].
      * intros Hr Hc.
        rewrite (lambda_handler_projects _ _ _ "GET" _ Hr eq_refl).
        rewrite <- Hf.
        by apply handle_errors_raised, get_all_projects_rejected.
      * intros x Hx. split; [|split].
        -- intros [Hm Hp] Hc.
           rewrite (lambda_handler_by_id _ _ _ x "GET" _ Hx Hp Hm eq_refl).
           rewrite <- Hf.
           apply handle_errors_raised, (get_project_by_id_rejected _ _ x);
             [apply path_id_bound|done].
        -- intros [Hm Hp] Hc.
           rewrite (lambda_handler_by_id _ _ _ x "DELETE" _ Hx Hp Hm
                      eq_refl).
           rewrite <- Hf.
           apply handle_errors_raised, (delete_project_rejected _ _ x);
             [apply path_id_bound|done].
        -- intros s b [Hm Hp] Hb Hs Hc.
           rewrite (lambda_handler_by_id _ _ _ x "PUT" _ Hx Hp Hm eq_refl).
           rewrite <- Hf.
           apply handle_errors_raised, (update_project_rejected _ _ x s b);
             [apply path_id_bound| |done|done].
           by rewrite dict_get_bound.
      * intros s b Hr Hb Hs Hc.
        rewrite (lambda_handler_projects _ _ _ "POST" _ Hr eq_refl).
        rewrite <- Hf.
        apply handle_errors_raised, (create_project_rejected _ _ s b);
          [|done|done].
        by rewrite dict_get_bound.
    + intros x item Hx Hr Hc Hi Hne Hn.
      rewrite (lambda_handler_get _ _ _ x Hx Hr Hc), Hi.
      rewrite (not_item_Some _ Hne). simpl default. by rewrite Hn.
Qed.

(** A create request whose body is not JSON. *)
Lemma C3_failures_become_500_witness :
  lambda_handler (rt := Sample.runtime)
    (Sample.request "POST" "/projects" (VStr "name=A")) VNone
    Sample.empty_world
  = ({| statusCode := 500;
        body :=
          Sample.dumps
            (VDict [("message",
                     VStr ("An internal error occurred: "
                           ++ "Expecting value: line 1 column 1 (char 0)"))])
     |},
     {| table := ∅; drawn := 0;
        stdout :=
          ["Error executing function: "
           ++ "Expecting value: line 1 column 1 (char 0)"] |}).
Proof.
  apply (proj1 (proj1 (proj2 (proj2 (proj2
    (C3_failures_become_500 (rt := Sample.runtime)
       (Sample.request "POST" "/projects" (VStr "name=A")) VNone
       Sample.empty_world))))
    "name=A" "Expecting value: line 1 column 1 (char 0)"
    eq_refl eq_refl)).
  split; reflexivity.
Defined.

(** X1. The status of a response of the entry point is 200, 201, 404 or
    500, whatever the event and the world; it is 201 only for a POST on
    [/projects]. *)
Theorem X1_status_codes {rt : Runtime} event context w :
  let r := (lambda_handler event context w).1 in
  statusCode r = 200
  ∨ (statusCode r = 201 ∧ requests "POST" "/projects" event)
  ∨ statusCode r = 404
  ∨ statusCode r = 500.
Proof.
  rewrite lambda_handler_eq.
  pose proof (lambda_handler_body_settles event context w) as Hs.
  destruct (lambda_handler_body event context w) as [[e|r] w']; simpl.
  { by auto. }
  destruct Hs as [_ [(path & m & Hp & Hm & Hr & ->)|[-> _]]]; [|by auto].
  unfold success_status. destruct (String.eqb m "POST") eqn:E; [|by auto].
  apply String.eqb_eq in E as ->. right. left. split; [done|].
  apply registered_post, pattern_projects in Hr as ->. by split.
Qed.

(** X2. A response of status 404 or 500 comes with the table as it was:
    a request changes the table only when it is answered 200 or 201. *)
Theorem X2_failure_leaves_table {rt : Runtime} event context w :
  let '(r, w') := lambda_handler event context w in
  statusCode r = 404 ∨ statusCode r = 500 →
  table w' = table w.
Proof.
  rewrite lambda_handler_eq.
  pose proof (lambda_handler_body_settles event context w) as Hs.
  destruct (lambda_handler_body event context w) as [[e|r] w']; simpl.
  { intros _. apply Hs. }
  destruct Hs as [_ [(path & m & _ & _ & _ & ->)|[_ ->]]]; [|done].
  unfold success_status. by destruct (String.eqb m "POST"); intros [|].
Qed.

(** An update whose body is absent: 500, and the table is as before. *)
Lemma X2_failure_leaves_table_witness :
  table (lambda_handler (rt := Sample.runtime)
           (Sample.request "PUT" "/projects/p1" VNone) VNone
           Sample.world_A).2
  = table Sample.world_A.
Proof.
  apply (X2_failure_leaves_table (rt := Sample.runtime)
           (Sample.request "PUT" "/projects/p1" VNone) VNone Sample.world_A).
  right. reflexivity.
Defined.

(** X3. The entry point prints exactly when it answers 500: then the
    response is status 500 with the body
    [{"message": "An internal error occurred: e"}] for the text [e] of an
    exception, and the one line [Error executing function: e] is added to
    what was printed; with any other status nothing is printed. *)
Theorem X3_prints_on_500_only {rt : Runtime} event context w :
  let '(r, w') := lambda_handler event context w in
  (∃ e, r = {| statusCode := 500;
               body :=
                 json_dumps
                   (VDict [("message",
                            VStr ("An internal error occurred: " ++ e))])
            |}
        ∧ stdout w' = app (stdout w) ["Error executing function: " ++ e])
  ∨ (statusCode r ≠ 500 ∧ stdout w' = stdout w).
Proof.
  rewrite lambda_handler_eq.
  pose proof (lambda_handler_body_settles event context w) as Hs.
  destruct (lambda_handler_body event context w) as [[e|r] w']; simpl.
  { left. exists e. split; [done|]. simpl. by rewrite (proj2 Hs). }
  right. destruct Hs as [Hout [(path & m & _ & _ & _ & Hr)|[Hr _]]];
    (split; [|done]); rewrite Hr; [|done].
  unfold success_status. by destruct (String.eqb m "POST").
Qed.

(** X4. A request whose method is not POST, PUT or DELETE (a GET, any
    other text, a missing method) leaves the table and the count of drawn
    identifiers as they were, whatever its path and body. *)
Theorem X4_other_methods_read_only {rt : Runtime} event context w :
  dict_get event "httpMethod" ≠ VStr "POST" →
  dict_get event "httpMethod" ≠ VStr "PUT" →
  dict_get event "httpMethod" ≠ VStr "DELETE" →
  let w' := (lambda_handler event context w).2 in
  table w' = table w ∧ drawn w' = drawn w.
Proof.
  intros Hpost Hput Hdelete. rewrite lambda_handler_eq.
  destruct (lambda_handler_body_cases event context w)
    as [[e ->]|[->|(path & m & h & Hp & Hm & Hh & ->)]]; [done|done|].
  rewrite Hm in Hpost, Hput, Hdelete.
  apply routes_inv in Hh
    as [[_ [[-> _]|[_ ->]]]|[_ [[_ ->]|[[-> _]|[-> _]]]]]; try done.
  - pose proof (get_all_projects_world
                  (PyDict.set event "pathParameters"
                     (path_parameters_of path).2) w) as Hw.
    destruct (get_all_projects _ w) as [[e|r] w']; simpl in *; by subst.
  - pose proof (get_project_by_id_world
                  (PyDict.set event "pathParameters"
                     (path_parameters_of path).2) w) as Hw.
    destruct (get_project_by_id _ w) as [[e|r] w']; simpl in *; by subst.
Qed.

(** A GET of a stored project. *)
Lemma X4_other_methods_read_only_witness :
  let w' := (lambda_handler (rt := Sample.runtime)
               (Sample.request "GET" "/projects/p1" VNone) VNone
               Sample.world_A).2 in
  table w' = table Sample.world_A ∧ drawn w' = drawn Sample.world_A.
Proof.
  apply (X4_other_methods_read_only (rt := Sample.runtime)); done.
Defined.

(** X5. A response of status 200 or 201 is given only to an event whose
    method and path are strings that the dispatch table of the
    specification registers, and the status is then the one of the method:
    201 for POST, 200 for the others. *)
Theorem X5_success_only_when_registered {rt : Runtime} event context w :
  let r := (lambda_handler event context w).1 in
  statusCode r = 200 ∨ statusCode r = 201 →
  ∃ path http_method,
    requests http_method path event
    ∧ Spec.registered (Spec.pattern path) http_method = true
    ∧ statusCode r = success_status http_method.
Proof.
  rewrite lambda_handler_eq.
  pose proof (lambda_handler_body_settles event context w) as Hs.
  destruct (lambda_handler_body event context w) as [[e|r] w']; simpl.
  { by intros [|]. }
  destruct Hs as [_ [(path & m & Hp & Hm & Hr & Hok)|[-> _]]];
    [|by intros [|]].
  intros _. by exists path, m.
Qed.

(** The list of the projects: GET is registered under [/projects]. *)
Lemma X5_success_only_when_registered_witness :
  ∃ path http_method,
    requests http_method path (Sample.request "GET" "/projects" VNone)
    ∧ Spec.registered (Spec.pattern path) http_method = true
    ∧ statusCode (lambda_handler (rt := Sample.runtime)
                    (Sample.request "GET" "/projects" VNone) VNone
                    Sample.world_A).1
      = success_status http_method.
Proof.
  apply (X5_success_only_when_registered (rt := Sample.runtime)
           (Sample.request "GET" "/projects" VNone) VNone Sample.world_A).
  left. reflexivity.
Defined.

(** X6. Path parameters that the event already carries have no effect:
    the router overwrites them with those of the path (or with [None]), so
    the response and the world are the same whatever the caller put under
    [pathParameters]. *)
Theorem X6_path_parameters_overwritten {rt : Runtime} event supplied
    context w :
  lambda_handler (PyDict.set event "pathParameters" supplied) context w
  = lambda_handler event context w.
Proof.
  unfold lambda_handler, handle_errors, lambda_handler_body.
  rewrite !dict_get_bound by done.
  destruct (dict_get event "path"); try done.
  destruct (path_parameters_of s) as [dynamic_path path_parameters].
  by rewrite set_set.
Qed.

Lemma removeprefix_app p r : Spec.removeprefix p (p ++ r) = Some r.
Proof.
  induction p as [|a p IH]; simpl; [done|]. by rewrite Ascii.eqb_refl.
Qed.

(** X7. The router takes the dynamic pattern for the paths [/projects/<x>]
    where [<x>] has no ['/'], binding [id] to [<x>], and for no other path:
    every other path ([/projects] itself, a path with a further segment, a
    path elsewhere) gets neither a dynamic pattern nor path parameters. *)
Theorem X7_dynamic_pattern_exactly (path : string) :
  (∃ x, path = "/projects/" ++ x ∧ no_sep slash x = true
        ∧ path_parameters_of path
          = (Some "/projects/{id}", VDict [("id", VStr x)]))
  ∨ ((∀ x, path = "/projects/" ++ x → no_sep slash x = false)
     ∧ path_parameters_of path = (None, VNone)).
Proof.
  destruct (Spec.removeprefix "/projects/" path) as [segment|] eqn:E.
  - apply removeprefix_Some in E as ->.
    destruct (no_sep slash segment) eqn:Hs.
    + left. exists segment. by rewrite path_parameters_of_segment.
    + right. split.
      * intros x [= Hx]. change (segment = x) in Hx. by subst x.
      * destruct (no_sep_false _ _ Hs) as (a & b & ->).
        apply (path_parameters_of_nested a b).
  - right. split.
    + intros x ->. by rewrite removeprefix_app in E.
    + unfold path_parameters_of. rewrite startswith_removeprefix, E.
      rewrite bool_decide_eq_false_2; [done|]. by intros [? ?].
Qed.

(** X8. An event whose path is not a string (absent, a number, a list)
    is answered status 500 with the body [{"message": "An internal error
    occurred: '<type>' object has no attribute 'startswith'"}], the text of
    the [AttributeError] that names the type of the path; an event whose
    path is a string and whose method is a list or a dict is answered
    status 500 with the text of the [TypeError] for an unhashable key
    ([unhashable type: '<type>'], as CPython words it up to 3.13), even
    when the path has no route and a string method would get 404.  The
    table is untouched and the text is printed. *)
Theorem X8_ill_typed_event {rt : Runtime} event context w :
  let failed (e : string) : response * world :=
    ({| statusCode := 500;
        body :=
          json_dumps
            (VDict [("message",
                     VStr ("An internal error occurred: " ++ e))]) |},
     {| table := table w; drawn := drawn w;
        stdout := app (stdout w) ["Error executing function: " ++ e] |})
  in
  ((∀ path, dict_get event "path" ≠ VStr path) →
   lambda_handler event context w
   = failed ("'" ++ type_name (dict_get event "path")
             ++ "' object has no attribute 'startswith'"))
  ∧ (∀ path, dict_get event "path" = VStr path →
       hashable (dict_get event "httpMethod") = false →
       lambda_handler event context w
       = failed ("unhashable type: '"
                 ++ type_name (dict_get event "httpMethod") ++ "'")).
Proof.
  intros failed. split.
  - intros Hp. by apply lambda_handler_no_startswith.
  - intros path Hp Hh. by apply (lambda_handler_unhashable _ _ _ path).
Qed.

(** A path that is a number, and a method that is a dict on a path
    without route. *)
Lemma X8_ill_typed_event_witness :
  lambda_handler (rt := Sample.runtime)
    [("httpMethod", VStr "GET"); ("path", VInt 7)] VNone Sample.world_A
  = ({| statusCode := 500;
        body :=
          Sample.dumps
            (VDict [("message",
                     VStr ("An internal error occurred: "
                           ++ "'int' object has no attribute "
                           ++ "'startswith'"))]) |},
     {| table := table Sample.world_A; drawn := 0;
        stdout :=
          ["Error executing function: "
           ++ "'int' object has no attribute 'startswith'"] |})
  ∧ lambda_handler (rt := Sample.runtime)
      [("httpMethod", VDict []); ("path", VStr "/health")] VNone
      Sample.world_A
    = ({| statusCode := 500;
          body :=
            Sample.dumps
              (VDict [("message",
                       VStr ("An internal error occurred: "
                             ++ "unhashable type: 'dict'"))]) |},
       {| table := table Sample.world_A; drawn := 0;
          stdout :=
            ["Error executing function: unhashable type: 'dict'"] |}).
Proof.
  split.
  - apply (proj1 (X8_ill_typed_event (rt := Sample.runtime)
                    [("httpMethod", VStr "GET"); ("path", VInt 7)] VNone
                    Sample.world_A)).
    intros path. discriminate.
  - apply (proj2 (X8_ill_typed_event (rt := Sample.runtime)
                    [("httpMethod", VDict []); ("path", VStr "/health")]
                    VNone Sample.world_A) "/health"); reflexivity.
Defined.

(** ** Bodies that are not a JSON object *)

Section Bodies.
Context {rt : Runtime}.

Lemma create_project_not_object event w s v :
  dict_get event "body" = VStr s →
  json_loads s = inr v →
  (∀ d, v ≠ VDict d) →
  create_project event w
  = (inl ("'" ++ type_name v ++ "' object has no attribute 'get'"),
     after_draw w).
Proof.
  intros Hb Hs Hv. unfold create_project. run_monad. rewrite Hb, Hs.
  destruct v; try done. by destruct (Hv d).
Qed.

Lemma update_project_not_object event w pid s v :
  path_id event = inr (VStr pid) →
  dict_get event "body" = VStr s →
  json_loads s = inr v →
  (∀ d, v ≠ VDict d) →
  update_project event w
  = (inl ("'" ++ type_name v ++ "' object has no attribute 'get'"), w).
Proof.
  intros Hid Hb Hs Hv. unfold update_project. run_monad.
  rewrite Hid, Hb, Hs. destruct v; try done. by destruct (Hv d).
Qed.

Lemma create_project_not_text event w :
  (∀ s, dict_get event "body" ≠ VStr s) →
  create_project event w
  = (inl ("the JSON object must be str, bytes or bytearray, not "
          ++ type_name (dict_get event "body")), w).
Proof.
  intros Hb. unfold create_project. run_monad.
  destruct (dict_get event "body"); try done. by destruct (Hb s).
Qed.

Lemma update_project_not_text event w pid :
  path_id event = inr (VStr pid) →
  (∀ s, dict_get event "body" ≠ VStr s) →
  update_project event w
  = (inl ("the JSON object must be str, bytes or bytearray, not "
          ++ type_name (dict_get event "body")), w).
Proof.
  intros Hid Hb. unfold update_project. run_monad. rewrite Hid.
  destruct (dict_get event "body"); try done. by destruct (Hb s).
Qed.

(** The run of an update whose body is an object, whether the service
    takes the call or not. *)
Lemma update_project_outcome event w pid s b :
  path_id event = inr (VStr pid) →
  dict_get event "body" = VStr s →
  json_loads s = inr (VDict b) →
  update_project event w
  = match store_fault
            (UpdateItem (VStr pid) (dict_get b "name")
               (dict_get b "description") (dict_get b "status")) with
    | Some e => (inl e, w)
    | None =>
        (inr {| statusCode := 200;
                body := json_dumps
                          (message "Project updated successfully") |},
         with_table w
           (<[pid := set_fields pid (dict_get b "name")
                       (dict_get b "description") (dict_get b "status")
                       (table w !! pid)]> (table w)))
    end.
Proof.
  intros Hid Hb Hs.
  destruct (store_fault _) as [e|] eqn:Hc.
  - by apply (update_project_rejected _ _ pid s b).
  - by apply (update_project_run _ _ pid s b).
Qed.

(** The run of a create whose body is an object. *)
Lemma create_project_outcome event w s b :
  dict_get event "body" = VStr s →
  json_loads s = inr (VDict b) →
  let item :=
    project_item (uuid4 (drawn w)) (dict_get b "name")
      (dict_get b "description") (dict_get b "status")
      (dict_get b "createdAt") in
  create_project event w
  = match store_fault (PutItem item) with
    | Some e => (inl e, after_draw w)
    | None =>
        (inr {| statusCode := 201; body := json_dumps (VDict item) |},
         with_table (after_draw w) (<[uuid4 (drawn w) := item]> (table w)))
    end.
Proof.
  intros Hb Hs item. unfold item.
  destruct (store_fault _) as [e|] eqn:Hc.
  - by apply (create_project_rejected _ _ s b).
  - by apply (create_project_run _ _ s b).
Qed.

End Bodies.

(** X9. A body that is JSON but not an object (an array, a text, a number,
    [null]) makes create and update answer status 500 with the body
    [{"message": "An internal error occurred: '<type>' object has no
    attribute 'get'"}], the text of the [AttributeError] that names the
    type of the parsed value; the text is printed, the table is as before,
    and create has by then drawn an identifier. *)
Theorem X9_body_not_an_object {rt : Runtime} event context w s v :
  dict_get event "body" = VStr s →
  json_loads s = inr v →
  (∀ d, v ≠ VDict d) →
  let e := "'" ++ type_name v ++ "' object has no attribute 'get'" in
  let failed (w1 : world) : response * world :=
    ({| statusCode := 500;
        body :=
          json_dumps
            (VDict [("message",
                     VStr ("An internal error occurred: " ++ e))]) |},
     {| table := table w1; drawn := drawn w1;
        stdout := app (stdout w1) ["Error executing function: " ++ e] |})
  in
  (requests "POST" "/projects" event →
   lambda_handler event context w = failed (after_draw w))
  ∧ (∀ x, no_sep slash x = true →
          requests "PUT" ("/projects/" ++ x) event →
          lambda_handler event context w = failed w).
Proof.
  intros Hb Hs Hv e failed.
  assert (∀ w1, (internal_error e, caught e w1) = failed w1) as Hf
    by reflexivity.
  split.
  - intros Hr. rewrite (lambda_handler_projects _ _ _ "POST" _ Hr eq_refl).
    rewrite <- Hf.
    apply handle_errors_raised, (create_project_not_object _ _ s);
      [|done|done].
    by rewrite dict_get_bound.
  - intros x Hx [Hm Hp].
    rewrite (lambda_handler_by_id _ _ _ x "PUT" _ Hx Hp Hm eq_refl).
    rewrite <- Hf.
    apply handle_errors_raised, (update_project_not_object _ _ x s);
      [apply path_id_bound| |done|done].
    by rewrite dict_get_bound.
Qed.

(** A create whose body is the empty array. *)
Lemma X9_body_not_an_object_witness :
  lambda_handler (rt := Sample.runtime)
    (Sample.request "POST" "/projects" (VStr "[]")) VNone Sample.world_A
  = ({| statusCode := 500;
        body :=
          Sample.dumps
            (VDict [("message",
                     VStr ("An internal error occurred: "
                           ++ "'list' object has no attribute 'get'"))]) |},
     {| table := table Sample.world_A; drawn := 1;
        stdout :=
          ["Error executing function: "
           ++ "'list' object has no attribute 'get'"] |}).
Proof.
  apply (proj1 (X9_body_not_an_object (rt := Sample.runtime)
                  (Sample.request "POST" "/projects" (VStr "[]")) VNone
                  Sample.world_A "[]" (VList []) eq_refl eq_refl
                  ltac:(discriminate))).
  split; reflexivity.
Defined.

(** X10. A body that is not a text (absent, [None], already a dict) makes
    create and update answer status 500 with the body [{"message": "An
    internal error occurred: the JSON object must be str, bytes or
    bytearray, not <type>"}], the text of the [TypeError] of [json.loads]
    that names the type of the body; the text is printed, nothing is drawn
    and the table is as before. *)
Theorem X10_body_not_a_text {rt : Runtime} event context w :
  (∀ s, dict_get event "body" ≠ VStr s) →
  let e := "the JSON object must be str, bytes or bytearray, not "
           ++ type_name (dict_get event "body") in
  let failed : response * world :=
    ({| statusCode := 500;
        body :=
          json_dumps
            (VDict [("message",
                     VStr ("An internal error occurred: " ++ e))]) |},
     {| table := table w; drawn := drawn w;
        stdout := app (stdout w) ["Error executing function: " ++ e] |})
  in
  (requests "POST" "/projects" event →
   lambda_handler event context w = failed)
  ∧ (∀ x, no_sep slash x = true →
          requests "PUT" ("/projects/" ++ x) event →
          lambda_handler event context w = failed).
Proof.
  intros Hb e failed.
  assert ((internal_error e, caught e w) = failed) as Hf by reflexivity.
  rewrite <- Hf. clear Hf failed.
  assert (∀ v s, dict_get (PyDict.set event "pathParameters" v) "body"
                 ≠ VStr s) as Hb'.
  { intros v s. by rewrite dict_get_bound. }
  assert (∀ v, type_name (dict_get (PyDict.set event "pathParameters" v)
                            "body")
               = type_name (dict_get event "body")) as Ht.
  { intros v. by rewrite dict_get_bound. }
  split.
  - intros Hr. rewrite (lambda_handler_projects _ _ _ "POST" _ Hr eq_refl).
    apply handle_errors_raised. unfold e. rewrite <- (Ht VNone).
    by apply create_project_not_text.
  - intros x Hx [Hm Hp].
    rewrite (lambda_handler_by_id _ _ _ x "PUT" _ Hx Hp Hm eq_refl).
    apply handle_errors_raised. unfold e.
    rewrite <- (Ht (VDict [("id", VStr x)])).
    apply (update_project_not_text _ _ x); [apply path_id_bound|done].
Qed.

(** An update without body. *)
Lemma X10_body_not_a_text_witness :
  lambda_handler (rt := Sample.runtime)
    [("httpMethod", VStr "PUT"); ("path", VStr "/projects/p1")] VNone
    Sample.world_A
  = ({| statusCode := 500;
        body :=
          Sample.dumps
            (VDict [("message",
                     VStr ("An internal error occurred: "
                           ++ "the JSON object must be str, bytes or "
                           ++ "bytearray, not NoneType"))]) |},
     {| table := table Sample.world_A; drawn := 0;
        stdout :=
          ["Error executing function: "
           ++ "the JSON object must be str, bytes or bytearray, "
           ++ "not NoneType"] |}).
Proof.
  apply (proj2 (X10_body_not_a_text (rt := Sample.runtime)
                  [("httpMethod", VStr "PUT"); ("path", VStr "/projects/p1")]
                  VNone Sample.world_A ltac:(discriminate)) "p1");
    [reflexivity|]. split; reflexivity.
Defined.

(** X11. An update reads the body only through [name], [description] and
    [status]: two PUT requests on the same path whose bodies are objects
    that agree on these three keys get the same response and leave the same
    world, whatever else the bodies hold ([id] and [createdAt] included)
    and whether the storage client takes the call or not. *)
Theorem X11_update_reads_three_fields {rt : Runtime} event1 event2 context
    w x s1 s2 b1 b2 :
  no_sep slash x = true →
  requests "PUT" ("/projects/" ++ x) event1 →
  requests "PUT" ("/projects/" ++ x) event2 →
  dict_get event1 "body" = VStr s1 → json_loads s1 = inr (VDict b1) →
  dict_get event2 "body" = VStr s2 → json_loads s2 = inr (VDict b2) →
  dict_get b1 "name" = dict_get b2 "name" →
  dict_get b1 "description" = dict_get b2 "description" →
  dict_get b1 "status" = dict_get b2 "status" →
  lambda_handler event1 context w = lambda_handler event2 context w.
Proof.
  intros Hx [Hm1 Hp1] [Hm2 Hp2] Hb1 Hs1 Hb2 Hs2 Hn Hd Hst.
  rewrite (lambda_handler_by_id _ _ _ x "PUT" _ Hx Hp1 Hm1 eq_refl).
  rewrite (lambda_handler_by_id _ _ _ x "PUT" _ Hx Hp2 Hm2 eq_refl).
  unfold handle_errors.
  rewrite (update_project_outcome _ _ x s1 b1), Hn, Hd, Hst;
    [|apply path_id_bound|by rewrite dict_get_bound|done].
  rewrite (update_project_outcome _ _ x s2 b2);
    [done|apply path_id_bound|by rewrite dict_get_bound|done].
Qed.

(** X12. A create reads the body only through [name], [description],
    [status] and [createdAt]: two POST requests on [/projects] whose bodies
    are objects that agree on these four keys get the same response and
    leave the same world; an [id] in the body, in particular, is ignored. *)
Theorem X12_create_reads_four_fields {rt : Runtime} event1 event2 context
    w s1 s2 b1 b2 :
  requests "POST" "/projects" event1 →
  requests "POST" "/projects" event2 →
  dict_get event1 "body" = VStr s1 → json_loads s1 = inr (VDict b1) →
  dict_get event2 "body" = VStr s2 → json_loads s2 = inr (VDict b2) →
  dict_get b1 "name" = dict_get b2 "name" →
  dict_get b1 "description" = dict_get b2 "description" →
  dict_get b1 "status" = dict_get b2 "status" →
  dict_get b1 "createdAt" = dict_get b2 "createdAt" →
  lambda_handler event1 context w = lambda_handler event2 context w.
Proof.
  intros Hr1 Hr2 Hb1 Hs1 Hb2 Hs2 Hn Hd Hst Hc.
  rewrite (lambda_handler_projects _ _ _ "POST" _ Hr1 eq_refl).
  rewrite (lambda_handler_projects _ _ _ "POST" _ Hr2 eq_refl).
  unfold handle_errors.
  rewrite (create_project_outcome _ _ s1 b1), Hn, Hd, Hst, Hc;
    [|by rewrite dict_get_bound|done].
  rewrite (create_project_outcome _ _ s2 b2);
    [done|by rewrite dict_get_bound|done].
Qed.

(** ** Requests in sequence *)

Lemma set_fields_idempotent k name description status old :
  set_fields k name description status
    (Some (set_fields k name description status old))
  = set_fields k name description status old.
Proof.
  unfold set_fields at 1. simpl default.
  rewrite (set_found _ "name" name) by apply set_fields_name.
  rewrite (set_found _ "description" description)
    by apply set_fields_description.
  apply set_found, set_fields_status.
Qed.

(** X13. PUT is idempotent: once an update with a body that is an object
    has been accepted, the same request again gets the same response and
    leaves the world exactly as the first one left it. *)
Theorem X13_update_idempotent {rt : Runtime} event context w x s b :
  no_sep slash x = true →
  requests "PUT" ("/projects/" ++ x) event →
  dict_get event "body" = VStr s →
  json_loads s = inr (VDict b) →
  store_fault
    (UpdateItem (VStr x) (dict_get b "name") (dict_get b "description")
       (dict_get b "status")) = None →
  let '(r, w1) := lambda_handler event context w in
  lambda_handler event context w1 = (r, w1).
Proof.
  intros Hx Hr Hb Hs Hc.
  rewrite (lambda_handler_update _ _ w x s b Hx Hr Hb Hs Hc).
  rewrite (lambda_handler_update _ _ _ x s b Hx Hr Hb Hs Hc).
  f_equal. unfold with_table. simpl.
  by rewrite lookup_insert_eq, set_fields_idempotent, insert_insert_eq.
Qed.

(** The update of [p1], twice. *)
Lemma X13_update_idempotent_witness :
  let event :=
    Sample.request "PUT" "/projects/p1"
      (VStr (Sample.dumps Sample.partial_update)) in
  let '(r, w1) :=
    lambda_handler (rt := Sample.runtime) event VNone Sample.world_A in
  lambda_handler (rt := Sample.runtime) event VNone w1 = (r, w1).
Proof.
  apply (X13_update_idempotent (rt := Sample.runtime) _ VNone
           Sample.world_A "p1" (Sample.dumps Sample.partial_update)
           [("name", VStr "B"); ("status", VStr "closed")]);
    try reflexivity.
  split; reflexivity.
Defined.

(** X14. DELETE is idempotent: once a delete has been accepted, the same
    request again gets the same response and leaves the world exactly as
    the first one left it. *)
Theorem X14_delete_idempotent {rt : Runtime} event context w x :
  no_sep slash x = true →
  requests "DELETE" ("/projects/" ++ x) event →
  store_fault (DeleteItem (VStr x)) = None →
  let '(r, w1) := lambda_handler event context w in
  lambda_handler event context w1 = (r, w1).
Proof.
  intros Hx Hr Hc.
  rewrite (lambda_handler_delete _ _ w x Hx Hr Hc).
  rewrite (lambda_handler_delete _ _ _ x Hx Hr Hc).
  f_equal. unfold with_table. simpl. by rewrite delete_delete_eq.
Qed.

(** The delete of [p1], twice. *)
Lemma X14_delete_idempotent_witness :
  let event := Sample.request "DELETE" "/projects/p1" VNone in
  let '(r, w1) :=
    lambda_handler (rt := Sample.runtime) event VNone Sample.world_A in
  lambda_handler (rt := Sample.runtime) event VNone w1 = (r, w1).
Proof.
  apply (X14_delete_idempotent (rt := Sample.runtime) _ VNone
           Sample.world_A "p1"); try reflexivity.
  split; reflexivity.
Defined.

(** X15. A delete undoes a create: when the generated identifier is new to
    the table, creating a project and then deleting it by the returned id
    leaves the table exactly as it was before the create. *)
Theorem X15_delete_undoes_create {rt : Runtime} create delete context w
    s b :
  requests "POST" "/projects" create →
  dict_get create "body" = VStr s →
  json_loads s = inr (VDict b) →
  let id := uuid4 (drawn w) in
  store_fault
    (PutItem (project_item id (dict_get b "name") (dict_get b "description")
                (dict_get b "status") (dict_get b "createdAt"))) = None →
  table w !! id = None →
  no_sep slash id = true →
  requests "DELETE" ("/projects/" ++ id) delete →
  store_fault (DeleteItem (VStr id)) = None →
  table (lambda_handler delete context
           (lambda_handler create context w).2).2
  = table w.
Proof.
  intros Hr Hb Hs id Hp Hfresh Hx Hd Hc.
  rewrite (lambda_handler_create _ _ w s b Hr Hb Hs Hp).
  rewrite (lambda_handler_delete _ _ _ id Hx Hd Hc). simpl.
  by rewrite delete_insert_eq, delete_id.
Qed.

(** The scenario of the specification, then a delete of the created id. *)
Lemma X15_delete_undoes_create_witness :
  table (lambda_handler (rt := Sample.runtime)
           (Sample.request "DELETE" "/projects/6f1c2a9e-0000-4000-8000-0"
              VNone) VNone
           (lambda_handler (rt := Sample.runtime)
              (Sample.request "POST" "/projects"
                 (VStr (Sample.dumps Sample.project_A))) VNone
              Sample.empty_world).2).2
  = table Sample.empty_world.
Proof.
  apply (X15_delete_undoes_create (rt := Sample.runtime) _ _ VNone
           Sample.empty_world (Sample.dumps Sample.project_A)
           [("name", VStr "A"); ("description", VStr "d");
            ("status", VStr "open"); ("createdAt", VStr "2024-01-01")]);
    try reflexivity; split; reflexivity.
Defined.

(** X16. An update of an id that the table does not hold makes the id
    exist: the table then holds under it an item made of the id and of the
    [name], [description] and [status] of the body, without [createdAt],
    and a get-by-id that follows does not answer 404: it answers status 200
    with that item when none of the three values holds a number, and
    status 500, for the [Decimal] that [json.dumps] refuses, when one
    does. *)
Theorem X16_update_creates_missing {rt : Runtime} put get context w x s b :
  table w !! x = None →
  no_sep slash x = true →
  requests "PUT" ("/projects/" ++ x) put →
  dict_get put "body" = VStr s →
  json_loads s = inr (VDict b) →
  store_fault
    (UpdateItem (VStr x) (dict_get b "name") (dict_get b "description")
       (dict_get b "status")) = None →
  requests "GET" ("/projects/" ++ x) get →
  store_fault (GetItem (VStr x)) = None →
  let w1 := (lambda_handler put context w).2 in
  let item : dict :=
    [("id", VStr x); ("name", dict_get b "name");
     ("description", dict_get b "description");
     ("status", dict_get b "status")] in
  table w1 !! x = Some item
  ∧ PyDict.find item "createdAt" = None
  ∧ (has_number (VDict item) = false →
     lambda_handler get context w1
     = ({| statusCode := 200; body := json_dumps (VDict item) |}, w1))
  ∧ (has_number (VDict item) = true →
     lambda_handler get context w1
     = ({| statusCode := 500;
           body :=
             json_dumps
               (VDict [("message",
                        VStr ("An internal error occurred: "
                              ++ "Object of type Decimal is not "
                              ++ "JSON serializable"))]) |},
        {| table := table w1; drawn := drawn w1;
           stdout :=
             app (stdout w1)
               ["Error executing function: "
                ++ "Object of type Decimal is not JSON serializable"] |})).
Proof.
  intros Hi Hx Hr Hb Hs Hc Hg Hcg w1 item.
  assert (table w1 !! x = Some item) as Hi1.
  { unfold w1. rewrite (lambda_handler_update _ _ w x s b Hx Hr Hb Hs Hc).
    simpl. by rewrite lookup_insert_eq, Hi. }
  pose proof (lambda_handler_get get context w1 x Hx Hg Hcg) as Hget.
  rewrite Hi1 in Hget. simpl default in Hget. cbn [not_item item] in Hget.
  split; [done|]. split; [done|].
  split; intros Hn; by rewrite Hget, Hn.
Qed.

(** An update of [p2], which is not stored, then a get of it. *)
Lemma X16_update_creates_missing_witness :
  let w1 :=
    (lambda_handler (rt := Sample.runtime)
       (Sample.request "PUT" "/projects/p2"
          (VStr (Sample.dumps Sample.partial_update))) VNone
       Sample.world_A).2 in
  lambda_handler (rt := Sample.runtime)
    (Sample.request "GET" "/projects/p2" VNone) VNone w1
  = ({| statusCode := 200;
        body := Sample.dumps
                  (VDict [("id", VStr "p2"); ("name", VStr "B");
                          ("description", VNone);
                          ("status", VStr "closed")]) |}, w1).
Proof.
  apply (proj1 (proj2 (proj2
           (X16_update_creates_missing (rt := Sample.runtime)
              (Sample.request "PUT" "/projects/p2"
                 (VStr (Sample.dumps Sample.partial_update)))
              (Sample.request "GET" "/projects/p2" VNone) VNone
              Sample.world_A "p2" (Sample.dumps Sample.partial_update)
              [("name", VStr "B"); ("status", VStr "closed")]
              eq_refl eq_refl (conj eq_refl eq_refl) eq_refl eq_refl
              eq_refl (conj eq_refl eq_refl) eq_refl)))).
  reflexivity.
Defined.

(** Two updates of [p1] whose bodies agree on the three fields. *)
Lemma X11_update_reads_three_fields_witness :
  lambda_handler (rt := MoreSamples.runtime)
    (Sample.request "PUT" "/projects/p1"
       (VStr (Sample.dumps Sample.partial_update))) VNone Sample.world_A
  = lambda_handler (rt := MoreSamples.runtime)
      (Sample.request "PUT" "/projects/p1"
         (VStr (Sample.dumps MoreSamples.tagged_update))) VNone
      Sample.world_A.
Proof.
  apply (X11_update_reads_three_fields (rt := MoreSamples.runtime) _ _
           VNone Sample.world_A "p1"
           (Sample.dumps Sample.partial_update)
           (Sample.dumps MoreSamples.tagged_update)
           [("name", VStr "B"); ("status", VStr "closed")]
           [("id", VStr "p9"); ("name", VStr "B"); ("status", VStr "closed");
            ("createdAt", VStr "1999-12-31")]);
    try reflexivity; split; reflexivity.
Defined.

(** Two creates whose bodies differ by an [id]. *)
Lemma X12_create_reads_four_fields_witness :
  lambda_handler (rt := MoreSamples.runtime)
    (Sample.request "POST" "/projects"
       (VStr (Sample.dumps Sample.project_A))) VNone Sample.world_A
  = lambda_handler (rt := MoreSamples.runtime)
      (Sample.request "POST" "/projects"
         (VStr (Sample.dumps MoreSamples.project_A_with_id))) VNone
      Sample.world_A.
Proof.
  apply (X12_create_reads_four_fields (rt := MoreSamples.runtime) _ _ VNone
           Sample.world_A (Sample.dumps Sample.project_A)
           (Sample.dumps MoreSamples.project_A_with_id)
           [("name", VStr "A"); ("description", VStr "d");
            ("status", VStr "open"); ("createdAt", VStr "2024-01-01")]
           [("id", VStr "mine"); ("name", VStr "A");
            ("description", VStr "d"); ("status", VStr "open");
            ("createdAt", VStr "2024-01-01")]);
    try reflexivity; split; reflexivity.
Defined.

(** ** The list of the projects *)

Section Listing.
Context {rt : Runtime}.

(** The items of the table in the order of the scan, and its first page. *)
Lemma get_all_projects_run event w :
  store_fault Scan = None →
  let stored := (map_to_list (table w)).*2 in
  let page := take (scan_page stored) stored in
  get_all_projects event w
  = (if has_number (VList (VDict <$> page))
     then inl "Object of type Decimal is not JSON serializable"
     else inr {| statusCode := 200;
                 body := json_dumps (VList (VDict <$> page)) |}, w).
Proof.
  intros Hc stored page. unfold get_all_projects. run_monad. rewrite Hc.
  fold stored. fold page. by destruct (has_number (VList (VDict <$> page))).
Qed.

Lemma lambda_handler_list event context w :
  requests "GET" "/projects" event →
  store_fault Scan = None →
  let stored := (map_to_list (table w)).*2 in
  let page := take (scan_page stored) stored in
  lambda_handler event context w
  = if has_number (VList (VDict <$> page))
    then (internal_error "Object of type Decimal is not JSON serializable",
          caught "Object of type Decimal is not JSON serializable" w)
    else ({| statusCode := 200;
             body := json_dumps (VList (VDict <$> page)) |}, w).
Proof.
  intros Hr Hc stored page.
  rewrite (lambda_handler_projects _ _ _ "GET" _ Hr eq_refl).
  unfold handle_errors. rewrite (get_all_projects_run _ _ Hc).
  fold stored. fold page. by destruct (has_number (VList (VDict <$> page))).
Qed.

Lemma scanned_items (t : gmap string dict) (item : dict) :
  item ∈ (map_to_list t).*2 ↔ ∃ k, t !! k = Some item.
Proof.
  rewrite list_elem_of_fmap. split.
  - intros ([k item'] & -> & Hk%elem_of_map_to_list). by exists k.
  - intros (k & Hk). exists (k, item). by rewrite elem_of_map_to_list.
Qed.

Lemma page_items (t : gmap string dict) (n : nat) (item : dict) :
  item ∈ take n (map_to_list t).*2 → ∃ k, t !! k = Some item.
Proof.
  intros Hi. apply scanned_items.
  apply list_elem_of_lookup in Hi as [i Hi].
  apply lookup_take_Some in Hi as [Hi _].
  apply list_elem_of_lookup. by exists i.
Qed.

End Listing.

(** X17. With a storage client that accepts the scan, GET on [/projects]
    answers from the first page of the scan alone, whatever the body of the
    request.  Every item of the page is an item of the table, and when the
    whole table fits in the page the page holds each stored item, one entry
    for each id.  The answer is status 200 with the page as a JSON array
    and the world as it was when no item of the page holds a number, and
    status 500, for the [Decimal] that [json.dumps] refuses, when one
    does. *)
Theorem X17_list_returns_stored_items {rt : Runtime} event context w :
  requests "GET" "/projects" event →
  store_fault Scan = None →
  let stored := (map_to_list (table w)).*2 in
  let page := take (scan_page stored) stored in
  (∀ item, item ∈ page → ∃ id, table w !! id = Some item)
  ∧ ((length stored ≤ scan_page stored)%nat →
     length page = size (table w)
     ∧ ∀ item, (∃ id, table w !! id = Some item) → item ∈ page)
  ∧ (has_number (VList (VDict <$> page)) = false →
     lambda_handler event context w
     = ({| statusCode := 200;
           body := json_dumps (VList (VDict <$> page)) |}, w))
  ∧ (has_number (VList (VDict <$> page)) = true →
     lambda_handler event context w
     = ({| statusCode := 500;
           body :=
             json_dumps
               (VDict [("message",
                        VStr ("An internal error occurred: "
                              ++ "Object of type Decimal is not "
                              ++ "JSON serializable"))]) |},
        {| table := table w; drawn := drawn w;
           stdout :=
             app (stdout w)
               ["Error executing function: "
                ++ "Object of type Decimal is not JSON serializable"] |})).
Proof.
  intros Hr Hc stored page.
  pose proof (lambda_handler_list event context w Hr Hc) as Hl.
  cbv zeta in Hl. fold stored in Hl. fold page in Hl.
  split; [intros item; apply page_items|].
  split.
  - intros Hfit. unfold page. rewrite take_ge by done. split.
    + unfold stored. by rewrite length_fmap, length_map_to_list.
    + intros item. apply scanned_items.
  - split; intros Hn; by rewrite Hl, Hn.
Qed.

(** The list of the world that holds [p1], and that of a world with a
    project whose name is a number. *)
Lemma X17_list_returns_stored_items_witness :
  lambda_handler (rt := Sample.runtime)
    (Sample.request "GET" "/projects" VNone) VNone Sample.world_A
  = ({| statusCode := 200;
        body := Sample.dumps (VList [VDict Sample.stored_A]) |},
     Sample.world_A)
  ∧ statusCode
      (lambda_handler (rt := Numbers.runtime)
         (Sample.request "GET" "/projects" VNone) VNone
         Numbers.world_numbered).1
    = 500.
Proof.
  split.
  - apply (proj1 (proj2 (proj2
             (X17_list_returns_stored_items (rt := Sample.runtime)
                (Sample.request "GET" "/projects" VNone) VNone
                Sample.world_A (conj eq_refl eq_refl) eq_refl)))).
    vm_compute. reflexivity.
  - rewrite (proj2 (proj2 (proj2
               (X17_list_returns_stored_items (rt := Numbers.runtime)
                  (Sample.request "GET" "/projects" VNone) VNone
                  Numbers.world_numbered (conj eq_refl eq_refl)
                  eq_refl)))).
    + reflexivity.
    + vm_compute. reflexivity.
Defined.

(** X18. A created project shows in the list when the table fits in one
    page of the scan and no stored item holds a number: after an accepted
    create, GET on [/projects] then answers status 200 with an array that
    holds the created item; when the generated identifier was new to the
    table, the array is one longer than the table was before the create. *)
Theorem X18_list_after_create {rt : Runtime} create list context w s b :
  requests "POST" "/projects" create →
  dict_get create "body" = VStr s →
  json_loads s = inr (VDict b) →
  let id := uuid4 (drawn w) in
  let item :=
    project_item id (dict_get b "name") (dict_get b "description")
      (dict_get b "status") (dict_get b "createdAt") in
  store_fault (PutItem item) = None →
  requests "GET" "/projects" list →
  store_fault Scan = None →
  let w1 := (lambda_handler create context w).2 in
  let stored := (map_to_list (table w1)).*2 in
  (length stored ≤ scan_page stored)%nat →
  has_number (VList (VDict <$> stored)) = false →
  lambda_handler list context w1
  = ({| statusCode := 200;
        body := json_dumps (VList (VDict <$> stored)) |}, w1)
  ∧ item ∈ stored
  ∧ (table w !! id = None → length stored = S (size (table w))).
Proof.
  intros Hr Hb Hs id item Hp Hl Hc w1 stored Hfit Hn.
  assert (table w1 = <[id := item]> (table w)) as Ht.
  { unfold w1. by rewrite (lambda_handler_create _ _ w s b Hr Hb Hs Hp). }
  split.
  - pose proof (lambda_handler_list list context w1 Hl Hc) as Hlist.
    cbv zeta in Hlist. fold stored in Hlist.
    rewrite take_ge in Hlist by done. by rewrite Hlist, Hn.
  - split.
    + apply scanned_items. exists id. by rewrite Ht, lookup_insert_eq.
    + intros Hfresh. unfold stored.
      by rewrite length_fmap, length_map_to_list, Ht, map_size_insert_None.
Qed.

(** The scenario of the specification, then the list. *)
Lemma X18_list_after_create_witness :
  let w1 :=
    (lambda_handler (rt := Sample.runtime)
       (Sample.request "POST" "/projects"
          (VStr (Sample.dumps Sample.project_A))) VNone
       Sample.world_A).2 in
  let stored := (map_to_list (table w1)).*2 in
  lambda_handler (rt := Sample.runtime)
    (Sample.request "GET" "/projects" VNone) VNone w1
  = ({| statusCode := 200;
        body := Sample.dumps (VList (VDict <$> stored)) |}, w1)
  ∧ project_item "6f1c2a9e-0000-4000-8000-0" (VStr "A") (VStr "d")
      (VStr "open") (VStr "2024-01-01") ∈ stored
  ∧ (table Sample.world_A !! "6f1c2a9e-0000-4000-8000-0" = None →
     length stored = S (size (table Sample.world_A))).
Proof.
  apply (X18_list_after_create (rt := Sample.runtime)
           (Sample.request "POST" "/projects"
              (VStr (Sample.dumps Sample.project_A)))
           (Sample.request "GET" "/projects" VNone) VNone Sample.world_A
           (Sample.dumps Sample.project_A)
           [("name", VStr "A"); ("description", VStr "d");
            ("status", VStr "open"); ("createdAt", VStr "2024-01-01")]);
    try reflexivity; try (split; reflexivity).
Defined.

(** ** The registry *)

Lemma route_eq path http_method func registry :
  route path http_method func registry
  = PyDict.set registry path
      (PyDict.set (default [] (PyDict.find registry path)) http_method func).
Proof. reflexivity. Qed.

(** X19. Registering a function under a path and a method makes the lookup
    of that path and method return it, replacing what was registered there
    before, and changes the lookup of no other path or method. *)
Theorem X19_route_then_lookup registry path http_method func :
  let registry' := route path http_method func registry in
  lookup_handler registry' path http_method = Some func
  ∧ (∀ path' http_method',
       path' ≠ path ∨ http_method' ≠ http_method →
       lookup_handler registry' path' http_method'
       = lookup_handler registry path' http_method').
Proof.
  intros registry'. unfold lookup_handler, registry'. rewrite route_eq.
  split.
  - rewrite find_set_eq. simpl. apply find_set_eq.
  - intros path' m' Hne.
    destruct (decide (path' = path)) as [->|Hp].
    + rewrite find_set_eq. simpl. destruct Hne as [|Hm]; [done|].
      by rewrite find_set_ne.
    + by rewrite find_set_ne.
Qed.

(** Registering PATCH under [/projects/{id}] in the registry of the
    module leaves GET on [/projects] with the list handler. *)
Lemma X19_route_then_lookup_witness :
  lookup_handler
    (route "/projects/{id}" "PATCH" (update_project (rt := Sample.runtime))
       (routes (rt := Sample.runtime))) "/projects" "GET"
  = lookup_handler (routes (rt := Sample.runtime)) "/projects" "GET".
Proof.
  apply (proj2 (X19_route_then_lookup (routes (rt := Sample.runtime))
                  "/projects/{id}" "PATCH"
                  (update_project (rt := Sample.runtime)))).
  left. discriminate.
Defined.

(** ** The ids of the stored items *)

(** X20. Every request keeps the items of the table under their own id:
    if each stored item carries, as its attribute [id], the key it is
    stored under, then so does each item of the table that the entry point
    leaves, whatever the event; no request rewrites the [id] of an item or
    stores an item under another id than its own. *)
Theorem X20_items_keep_their_id {rt : Runtime} event context w :
  wf_table (table w) →
  wf_table (table (lambda_handler event context w).2).
Proof.
  intros Hw. rewrite lambda_handler_eq.
  pose proof (preserves_lambda_handler_body event context w Hw) as Hb.
  by destruct (lambda_handler_body event context w) as [[e|r] w'].
Qed.

(** The scenario of the specification on the empty table. *)
Lemma X20_items_keep_their_id_witness :
  wf_table
    (table (lambda_handler (rt := Sample.runtime)
              (Sample.request "POST" "/projects"
                 (VStr (Sample.dumps Sample.project_A))) VNone
              Sample.empty_world).2).
Proof.
  apply (X20_items_keep_their_id (rt := Sample.runtime)).
  simpl. apply wf_table_empty.
Defined.

(** ** The handlers called without the router *)

Section Direct.
Context {rt : Runtime}.

Lemma by_id_handlers_raise event w e :
  path_id event = inl e →
  get_project_by_id event w = (inl e, w)
  ∧ update_project event w = (inl e, w)
  ∧ delete_project event w = (inl e, w).
Proof.
  intros Hid. unfold get_project_by_id, update_project, delete_project.
  run_monad. by rewrite Hid.
Qed.

End Direct.

(** X21. Called with an event that the router has not prepared, the three
    by-id handlers raise before they read the body or call the storage
    client: with no [pathParameters] key the text is that of
    [KeyError('pathParameters')], with [pathParameters] set to [None] (as
    for a path without parameters) it is that of the [TypeError] of a
    subscript on [None], and with path parameters that lack [id] it is that
    of [KeyError('id')]; the world is as before. *)
Theorem X21_by_id_handlers_need_path_parameters {rt : Runtime} event w :
  let raises e :=
    get_project_by_id event w = (inl e, w)
    ∧ update_project event w = (inl e, w)
    ∧ delete_project event w = (inl e, w) in
  (PyDict.find event "pathParameters" = None → raises "'pathParameters'")
  ∧ (PyDict.find event "pathParameters" = Some VNone →
     raises "'NoneType' object is not subscriptable")
  ∧ (∀ d, PyDict.find event "pathParameters" = Some (VDict d) →
          PyDict.find d "id" = None → raises "'id'").
Proof.
  intros raises. unfold raises. repeat split; intros;
    apply by_id_handlers_raise; unfold path_id, subscript;
    repeat match goal with H : _ = _ |- _ => rewrite H end; reflexivity.
Qed.

(** A delete called with the event of the gateway alone. *)
Lemma X21_by_id_handlers_need_path_parameters_witness :
  delete_project (rt := Sample.offline)
    (Sample.request "DELETE" "/projects/p1" VNone) Sample.world_A
  = (inl "'pathParameters'", Sample.world_A).
Proof.
  apply (proj1 (X21_by_id_handlers_need_path_parameters
                  (rt := Sample.offline)
                  (Sample.request "DELETE" "/projects/p1" VNone)
                  Sample.world_A) eq_refl).
Defined.

(** ** The identifiers drawn *)

Section Draws.
Context {rt : Runtime}.

Lemma create_project_drawn event w :
  drawn (create_project event w).2 = drawn w
  ∨ drawn (create_project event w).2 = S (drawn w).
Proof. unfold create_project. run_monad. split_cases; simpl; auto. Qed.

Lemma update_project_drawn event w :
  drawn (update_project event w).2 = drawn w.
Proof. unfold update_project. run_monad. by split_cases. Qed.

Lemma delete_project_drawn event w :
  drawn (delete_project event w).2 = drawn w.
Proof. unfold delete_project. run_monad. by split_cases. Qed.

End Draws.

(** X22. A request draws at most one identifier, and only a POST on
    [/projects] draws one: after any other request the count of drawn
    identifiers is as before, so that two creates never share a draw. *)
Theorem X22_one_draw_per_create {rt : Runtime} event context w :
  let w' := (lambda_handler event context w).2 in
  drawn w' = drawn w
  ∨ (drawn w' = S (drawn w) ∧ requests "POST" "/projects" event).
Proof.
  rewrite lambda_handler_eq.
  destruct (lambda_handler_body_cases event context w)
    as [[e ->]|[->|(path & m & h & Hp & Hm & Hh & ->)]];
    [by left|by left|].
  set (event' := PyDict.set event "pathParameters"
                   (path_parameters_of path).2).
  assert (∀ p : (string + response) * world,
            (match p with
             | (inr r, w') => (r, w')
             | (inl e, w') => (internal_error e, caught e w')
             end).2.(drawn) = p.2.(drawn)) as Hd.
  { by intros [[e|r] w']. }
  simpl. rewrite Hd.
  apply routes_inv in Hh
    as [[Hpat [[-> ->]|[_ ->]]]|[_ [[_ ->]|[[_ ->]|[_ ->]]]]].
  - apply pattern_projects in Hpat as ->.
    destruct (create_project_drawn event' w) as [|Hs]; [by left|].
    right. by repeat split.
  - left. by rewrite get_all_projects_world.
  - left. by rewrite get_project_by_id_world.
  - left. apply update_project_drawn.
  - left. apply delete_project_drawn.
Qed.
